(** * MTA turnstile analysis: a shallow embedding of the ETL pipeline

    The development follows the three source files of the repository:
    [import_data.py] (module [ImportData]), [preprocessing.py] (module
    [Preprocessing]) and [utils.py] (module [Utils]).  Python exceptions
    are values of [Py.exn]; a call that may raise returns a [Py.result].
    The libraries the code calls (requests, BeautifulSoup, pandas'
    [read_csv] and [to_datetime], the [Timestamp] accessors) are
    interfaces whose instances are supplied by the caller. *)

From Stdlib Require Import ZArith QArith Lia List String Ascii Bool.
From Stdlib Require Import Sorting.Permutation Sorting.Sorted.
From stdpp Require Import base strings gmap list.

Local Open Scope string_scope.
Local Open Scope Z_scope.

(** ** Python exceptions and the result of a call *)

Module Py.

Inductive exn : Type :=
| NameError (name : string)
| TypeError (msg : string)
| ValueError (msg : string)
| KeyError (key : string)
| RuntimeError (msg : string)
| AttributeError (name : string)
| AssertionError
| HTTPError (url : string)
| ParserError (url : string).

Inductive result (A : Type) : Type :=
| Ok (a : A)
| Raise (e : exn).

Arguments Ok {A} a.
Arguments Raise {A} e.

Definition bind {A B : Type} (m : result A) (k : A -> result B) : result B :=
  match m with
  | Ok a => k a
  | Raise e => Raise e
  end.

Definition raises {A : Type} (m : result A) : bool :=
  match m with
  | Ok _ => false
  | Raise _ => true
  end.

(** [for x in xs: acc = body acc x], stopping at the first exception. *)
Fixpoint for_each {A S : Type} (body : S -> A -> result S) (xs : list A) (acc : S)
  : result S :=
  match xs with
  | [] => Ok acc
  | x :: rest => bind (body acc x) (for_each body rest)
  end.

(** [[f(x) for x in xs]], stopping at the first exception. *)
Fixpoint map_m {A B : Type} (f : A -> result B) (xs : list A) : result (list B) :=
  match xs with
  | [] => Ok []
  | x :: rest => bind (f x) (fun y => bind (map_m f rest) (fun ys => Ok (y :: ys)))
  end.

End Py.

Notation "'let*' x ':=' m 'in' k" := (Py.bind m (fun x => k))
  (at level 10, x name, m at level 100, k at level 200).
Notation "'do' m 'in' k" := (Py.bind m (fun _ => k))
  (at level 10, m at level 100, k at level 200).

(** ** Strings as Python uses them *)

Module Str.

(** [needle in hay] *)
Fixpoint contains (needle hay : string) : bool :=
  String.prefix needle hay ||
  match hay with
  | EmptyString => false
  | String _ rest => contains needle rest
  end.

(** The characters [str.strip()] removes, on the ASCII range. *)
Definition is_space (c : ascii) : bool :=
  let n := nat_of_ascii c in
  ((9 <=? n)%nat && (n <=? 13)%nat) || ((28 <=? n)%nat && (n <=? 32)%nat).

Fixpoint lstrip (s : string) : string :=
  match s with
  | EmptyString => EmptyString
  | String c rest => if is_space c then lstrip rest else s
  end.

Fixpoint rstrip (s : string) : string :=
  match s with
  | EmptyString => EmptyString
  | String c rest =>
      match rstrip rest with
      | EmptyString => if is_space c then EmptyString else String c EmptyString
      | r => String c r
      end
  end.

Definition strip (s : string) : string := rstrip (lstrip s).

End Str.

(** ** import_data.py *)

Module ImportData.
Import Py.

(** A [datetime]: seconds since the epoch. *)
Definition datetime := Z.

(** An [<a>] element as BeautifulSoup presents it: the attribute
    dictionary and the display text. *)
Record Anchor : Type := { attrs : gmap string string; text : string }.

(** The ['Date'] column of the link table.  [pd.to_datetime] converts
    the column as a whole: it is either [datetime64] (with [NaT] as
    [None]) or still the [object] column of display texts. *)
Inductive DateColumn : Type :=
| Datetime64 (values : list (option datetime))
| Object (values : list string).

Record LinksFrame : Type := { Date : DateColumn; Hyperlink : list string }.

Definition height (df : LinksFrame) : nat := length (Hyperlink df).

(** What the code obtains from outside the repository. *)
Class World : Type := {
  (** [requests.get(url)]: the status code and the body. *)
  requests_get : string -> result (Z * string);
  (** [BeautifulSoup(text, 'html.parser').find_all('a')] *)
  find_all_a : string -> list Anchor;
  (** [pd.to_datetime] on one display text: [None] when it raises
      [ValueError], [Some None] for [NaT]. *)
  to_datetime : string -> option (option datetime);
  (** The tables [pd.read_csv] returns, with [pd.DataFrame()] and
      [DataFrame.append]. *)
  Table : Type;
  empty_table : Table;
  append : Table -> Table -> Table;
  read_csv : string -> result Table
}.

Definition marker : string := "data/nyct/turnstile/".
Definition base_url : string := "http://web.mta.info/developers/".
Definition default_webpage : string := "http://web.mta.info/developers/turnstile.html".

(** Lines 66-72: the [date, hyperlink] pairs of the matching anchors. *)
Fixpoint turnstile_links (anchors : list Anchor) : list (string * string) :=
  match anchors with
  | [] => []
  | link :: rest =>
      match attrs link !! "href" with
      | Some href =>
          if Str.contains marker href
          then (text link, base_url +:+ href) :: turnstile_links rest
          else turnstile_links rest
      | None => turnstile_links rest
      end
  end.

(** [pd.to_datetime(column)] with the default [errors='raise']. *)
Fixpoint to_datetime_column `{World} (texts : list string) : option (list (option datetime)) :=
  match texts with
  | [] => Some []
  | t :: rest =>
      match to_datetime t, to_datetime_column rest with
      | Some d, Some ds => Some (d :: ds)
      | _, _ => None
      end
  end.

(** [find_links(soup)], on the anchors of the soup.  The name
    [RunTimeError] on line 75 is bound nowhere: evaluating it raises
    [NameError].  The [ValueError] of the conversion is caught on
    line 81 and the column is left as it was. *)
Definition find_links `{World} (anchors : list Anchor) : result LinksFrame :=
  let links := turnstile_links anchors in
  if (length links =? 0)%nat then Raise (NameError "RunTimeError")
  else
    let texts := map fst links in
    let urls := map snd links in
    match to_datetime_column texts with
    | Some dates => Ok {| Date := Datetime64 dates; Hyperlink := urls |}
    | None => Ok {| Date := Object texts; Hyperlink := urls |}
    end.

(** Line 37: [(df['Date'] > start_date) & (df['Date'] <= end_date)].
    Comparing a [str] with a [datetime] raises [TypeError]; a
    comparison with [NaT] is [False]. *)
Definition in_range (start_date end_date : datetime) (d : option datetime) : bool :=
  match d with
  | Some t => (start_date <? t) && (t <=? end_date)
  | None => false
  end.

Definition date_mask (start_date end_date : datetime) (col : DateColumn)
  : result (list bool) :=
  match col with
  | Datetime64 ds => Ok (map (in_range start_date end_date) ds)
  | Object [] => Ok []
  | Object (_ :: _) =>
      Raise (TypeError "'>' not supported between instances of 'str' and 'datetime.datetime'")
  end.

(** [series.loc[mask]] *)
Fixpoint loc {A : Type} (xs : list A) (mask : list bool) : list A :=
  match xs, mask with
  | x :: xs', b :: mask' => if b then x :: loc xs' mask' else loc xs' mask'
  | _, _ => []
  end.

Definition loc_dates (col : DateColumn) (mask : list bool) : DateColumn :=
  match col with
  | Datetime64 ds => Datetime64 (loc ds mask)
  | Object ts => Object (loc ts mask)
  end.

(** Lines 37-39. *)
Definition select_links (start_date end_date : datetime) (df : LinksFrame)
  : result LinksFrame :=
  let* mask := date_mask start_date end_date (Date df) in
  Ok {| Date := loc_dates (Date df) mask; Hyperlink := loc (Hyperlink df) mask |}.

(** Lines 44-47, one iteration.  [HTTPError] is imported nowhere in
    the module, so when [read_csv] raises, evaluating the [except]
    clause raises [NameError] in its place. *)
Definition fetch_one `{World} (turnstile_df : Table) (link : string) : result Table :=
  match read_csv link with
  | Ok csv => Ok (append turnstile_df csv)
  | Raise _ => Raise (NameError "HTTPError")
  end.

(** Lines 41-49. *)
Definition fetch_all `{World} (links : list string) : result Table :=
  for_each fetch_one links empty_table.

(** [import_data(start_date, end_date, mta_webpage)].  The default of
    [end_date] is the value [datetime.datetime.now()] had when the
    [def] statement ran, [loaded_at]; [None] stands for an omitted
    argument.  The three [type(...)] tests pass by typing. *)
Definition import_data `{World} (loaded_at : datetime)
    (start_date : datetime) (end_date : option datetime) (mta_webpage : option string)
  : result Table :=
  let end_date := default loaded_at end_date in
  let mta_webpage := default default_webpage mta_webpage in
  if end_date <? start_date
  then Raise (ValueError "the start date must occur before the end date")
  else
    let* response := requests_get mta_webpage in
    if negb (fst response =? 200)
    then Raise (ValueError "the mta_webpage url could not be opened")
    else
      let* mta_hyperlinks_df := find_links (find_all_a (snd response)) in
      let* mta_hyperlinks_df := select_links start_date end_date mta_hyperlinks_df in
      fetch_all (Hyperlink mta_hyperlinks_df).

End ImportData.

(** ** The part of pandas the transforms use *)

Module Pandas.
Import Py.

(** A [Timestamp]: seconds since the epoch. *)
Definition Timestamp := Z.

(** One value of a frame.  Counters and calendar fields are integers;
    coordinates are carried as integers in a fixed-point unit.  A
    missing value ([NaN], [NaT], [None]) is the absence of the cell. *)
Inductive Cell : Type :=
| Text (s : string)
| Num (z : Z)
| Time (t : Timestamp).

(** A row maps column names to cells; a [Series] is one column. *)
Abbreviation Row := (gmap string Cell).
Abbreviation Series := (list (option Cell)).

Record DataFrame : Type := { columns : list string; rows : list Row }.

Definition has_column (df : DataFrame) (c : string) : bool :=
  existsb (String.eqb c) (columns df).

Definition set_cell (c : string) (v : option Cell) (r : Row) : Row :=
  partial_alter (fun _ => v) c r.

(** [df[c]] *)
Definition getitem (df : DataFrame) (c : string) : result Series :=
  if has_column df c then Ok (map (fun r : Row => r !! c) (rows df))
  else Raise (KeyError c).

Fixpoint zip_set (c : string) (rs : list Row) (s : Series) : list Row :=
  match rs, s with
  | r :: rs', v :: s' => set_cell c v r :: zip_set c rs' s'
  | _, _ => []
  end.

(** [df[c] = s] *)
Definition setitem (df : DataFrame) (c : string) (s : Series) : DataFrame :=
  {| columns := if has_column df c then columns df else columns df ++ [c];
     rows := zip_set c (rows df) s |}.

(** [df.loc[mask]] *)
Fixpoint loc (rs : list Row) (mask : list bool) : list Row :=
  match rs, mask with
  | r :: rs', b :: mask' => if b then r :: loc rs' mask' else loc rs' mask'
  | _, _ => []
  end.

Definition loc_rows (df : DataFrame) (mask : list bool) : DataFrame :=
  {| columns := columns df; rows := loc (rows df) mask |}.

(** [df.loc[mask, c] = np.nan] *)
Fixpoint loc_set_nan (c : string) (rs : list Row) (mask : list bool) : list Row :=
  match rs, mask with
  | r :: rs', b :: mask' =>
      (if b then set_cell c None r else r) :: loc_set_nan c rs' mask'
  | _, _ => []
  end.

(** [series + ' '], [series + series] on text; a missing value stays
    missing, a number cannot be added to text. *)
Definition add_text (a : option Cell) (s : string) : result (option Cell) :=
  match a with
  | Some (Text x) => Ok (Some (Text (x +:+ s)))
  | None => Ok None
  | Some _ => Raise (TypeError "unsupported operand type(s) for +")
  end.

Definition add_cells (a b : option Cell) : result (option Cell) :=
  match a, b with
  | Some (Text x), Some (Text y) => Ok (Some (Text (x +:+ y)))
  | None, (None | Some (Text _)) => Ok None
  | Some (Text _), None => Ok None
  | _, _ => Raise (TypeError "unsupported operand type(s) for +")
  end.

Fixpoint zip_m {A B C : Type} (f : A -> B -> result C) (xs : list A) (ys : list B)
  : result (list C) :=
  match xs, ys with
  | x :: xs', y :: ys' =>
      let* z := f x y in
      let* zs := zip_m f xs' ys' in
      Ok (z :: zs)
  | _, _ => Ok []
  end.

Definition series_add_text (s : Series) (t : string) : result Series :=
  map_m (fun a => add_text a t) s.

Definition series_add (s1 s2 : Series) : result Series := zip_m add_cells s1 s2.

(** [cur - prev] of [Series.diff]. *)
Definition sub_cells (cur prev : option Cell) : result (option Cell) :=
  match cur, prev with
  | Some (Num a), Some (Num b) => Ok (Some (Num (a - b)))
  | None, (None | Some (Num _)) => Ok None
  | Some (Num _), None => Ok None
  | _, _ => Raise (TypeError "unsupported operand type(s) for -")
  end.

(** [series.shift(1)] *)
Fixpoint shift_from (prev : option Cell) (s : Series) : Series :=
  match s with
  | [] => []
  | x :: rest => prev :: shift_from x rest
  end.

Definition shift (s : Series) : Series := shift_from None s.

(** [series.diff()] *)
Definition diff (s : Series) : result Series := zip_m sub_cells s (shift s).

Definition cell_eqb (a b : Cell) : bool :=
  match a, b with
  | Text x, Text y => String.eqb x y
  | Num x, Num y => x =? y
  | Time x, Time y => x =? y
  | _, _ => false
  end.

(** [a != b] elementwise: anything differs from a missing value. *)
Definition ne_cells (a b : option Cell) : bool :=
  match a, b with
  | Some x, Some y => negb (cell_eqb x y)
  | _, _ => true
  end.

Fixpoint zip_with_bool (f : option Cell -> option Cell -> bool) (s1 s2 : Series)
  : list bool :=
  match s1, s2 with
  | a :: s1', b :: s2' => f a b :: zip_with_bool f s1' s2'
  | _, _ => []
  end.

Definition series_ne (s1 s2 : Series) : list bool := zip_with_bool ne_cells s1 s2.

(** [series < k] and [series > k] against a number; a missing value
    compares [False]. *)
Definition lt_scalar (k : Z) (a : option Cell) : result bool :=
  match a with
  | Some (Num z) => Ok (z <? k)
  | None => Ok false
  | Some _ => Raise (TypeError "'<' not supported")
  end.

Definition gt_scalar (k : Z) (a : option Cell) : result bool :=
  match a with
  | Some (Num z) => Ok (k <? z)
  | None => Ok false
  | Some _ => Raise (TypeError "'>' not supported")
  end.

(** The order [sort_values] uses within one column: missing values
    last ([na_position='last']), text by code point, numbers and
    timestamps by value. *)
Definition rank (c : Cell) : Z :=
  match c with Text _ => 0 | Num _ => 1 | Time _ => 2 end.

Definition compare_cell (a b : option Cell) : comparison :=
  match a, b with
  | None, None => Eq
  | None, Some _ => Gt
  | Some _, None => Lt
  | Some (Text x), Some (Text y) => String.compare x y
  | Some (Num x), Some (Num y) => Z.compare x y
  | Some (Time x), Some (Time y) => Z.compare x y
  | Some x, Some y => Z.compare (rank x) (rank y)
  end.

(** Lexicographic comparison of two rows on the columns [by]. *)
Fixpoint compare_rows (by_ : list string) (r1 r2 : Row) : comparison :=
  match by_ with
  | [] => Eq
  | c :: rest =>
      match compare_cell (r1 !! c) (r2 !! c) with
      | Eq => compare_rows rest r1 r2
      | o => o
      end
  end.

Definition rows_le (by_ : list string) (r1 r2 : Row) : bool :=
  match compare_rows by_ r1 r2 with Gt => false | _ => true end.

(** [sort_values] on several columns is a stable sort (a lexsort):
    rows with equal keys keep their order. *)
Fixpoint insert_row (by_ : list string) (r : Row) (sorted : list Row) : list Row :=
  match sorted with
  | [] => [r]
  | x :: rest =>
      if rows_le by_ r x then r :: sorted else x :: insert_row by_ r rest
  end.

Fixpoint sort_rows (by_ : list string) (rs : list Row) : list Row :=
  match rs with
  | [] => []
  | r :: rest => insert_row by_ r (sort_rows by_ rest)
  end.

Definition all_columns (df : DataFrame) (cs : list string) : result unit :=
  match List.find (fun c => negb (has_column df c)) cs with
  | Some c => Raise (KeyError c)
  | None => Ok tt
  end.

(** [df.sort_values(by)] *)
Definition sort_values (df : DataFrame) (by_ : list string) : result DataFrame :=
  do all_columns df by_ in
  Ok {| columns := columns df; rows := sort_rows by_ (rows df) |}.

(** [df.dropna(how='any')] *)
Definition complete (cs : list string) (r : Row) : bool :=
  forallb (fun c => match r !! c with Some _ => true | None => false end) cs.

Definition dropna (df : DataFrame) : DataFrame :=
  {| columns := columns df; rows := List.filter (complete (columns df)) (rows df) |}.

(** [df.drop(columns=cs)] *)
Definition drop_cells (cs : list string) (r : Row) : Row :=
  fold_right (fun c acc => delete c acc) r cs.

Definition drop (df : DataFrame) (cs : list string) : result DataFrame :=
  do all_columns df cs in
  Ok {| columns := List.filter (fun c => negb (existsb (String.eqb c) cs)) (columns df);
        rows := map (drop_cells cs) (rows df) |}.

(** [df.rename(columns={old: new})]; a name that is no column is
    ignored. *)
Definition rename_cell (old new : string) (r : Row) : Row :=
  set_cell new (r !! old) (delete old r).

Definition rename (df : DataFrame) (old new : string) : DataFrame :=
  if has_column df old
  then {| columns := map (fun c => if String.eqb c old then new else c) (columns df);
          rows := map (rename_cell old new) (rows df) |}
  else df.

End Pandas.

(** ** preprocessing.py *)

Module Preprocessing.
Import Py Pandas.

(** The [Timestamp] operations of pandas the transform calls. *)
Class Calendar : Type := {
  (** [pd.to_datetime(s, format="%m/%d/%Y %H:%M:%S")] on one text;
      [None] when it raises [ValueError]. *)
  strptime : string -> option Timestamp;
  (** [x.weekday()], [x.week], [x.hour] *)
  weekday : Timestamp -> Z;
  week : Timestamp -> Z;
  hour : Timestamp -> Z
}.

(** One line of [./datasets/station_coordinates.csv]. *)
Record StationCoordinate : Type :=
  { station : string; latitude : Z; longitude : Z }.

(** [assert e]: raises only when [e] is falsy. *)
Definition assert_ (truthy : bool) : result unit :=
  if truthy then Ok tt else Raise AssertionError.

(** An exception instance is an object like any other: it is truthy. *)
Definition exception_is_truthy (e : exn) : bool := true.

(** [df.columns = df.columns.str.strip()]; the names of a header are
    taken to stay distinct when stripped. *)
Definition strip_columns (df : DataFrame) : DataFrame :=
  {| columns := map Str.strip (columns df);
     rows := map (kmap Str.strip) (rows df) |}.

(** A column is of dtype [object] when it holds text. *)
Definition dtype_is_object (df : DataFrame) (column : string) : bool :=
  existsb (fun r : Row => match r !! column with Some (Text _) => true | _ => false end)
          (rows df).

(** [series.str.strip()]: a value that is no text becomes [NaN]. *)
Definition str_strip (a : option Cell) : option Cell :=
  match a with
  | Some (Text s) => Some (Text (Str.strip s))
  | _ => None
  end.

(** Lines 95-100, one column. *)
Definition strip_column (df : DataFrame) (column : string) : DataFrame :=
  if dtype_is_object df column
  then {| columns := columns df;
          rows := map (fun r : Row => set_cell column (str_strip (r !! column)) r) (rows df) |}
  else df.

(** [strip_spaces(df)]; the two [assert]s on lines 91 and 93 are of
    exception instances and never fail. *)
Definition strip_spaces (df : DataFrame) : DataFrame :=
  fold_left strip_column (columns df) df.

Definition correct_column_names : list string :=
  ["C/A"; "UNIT"; "SCP"; "STATION"; "LINENAME"; "DIVISION"; "DATE"; "TIME"; "DESC";
   "ENTRIES"; "EXITS"].

(** [columns != correct_column_names]: pandas compares an [Index]
    with a list element by element and raises [ValueError] when the
    lengths differ. *)
Fixpoint index_ne (xs ys : list string) : list bool :=
  match xs, ys with
  | x :: xs', y :: ys' => negb (String.eqb x y) :: index_ne xs' ys'
  | _, _ => []
  end.

Definition columns_ne (columns correct : list string) : result (list bool) :=
  if (length columns =? length correct)%nat then Ok (index_ne columns correct)
  else Raise (ValueError "Lengths must match to compare").

(** [check_column_names(columns)].  Both [if] bodies are
    [assert ValueError(...)]: the assertion is of an exception
    instance, not a [raise]. *)
Definition check_column_names (columns : list string) : result unit :=
  do (if negb (length columns =? length correct_column_names)%nat
      then assert_ (exception_is_truthy
             (ValueError "The DataFrame does not contain the correct number of columns."))
      else Ok tt) in
  let* ne := columns_ne columns correct_column_names in
  if existsb id ne
  then assert_ (exception_is_truthy
         (ValueError "The columns are not correctly formatted MTA Data."))
  else Ok tt.

(** [pd.to_datetime(series, format=...)] *)
Definition to_datetime_cell `{Calendar} (a : option Cell) : result (option Cell) :=
  match a with
  | Some (Text s) =>
      match strptime s with
      | Some t => Ok (Some (Time t))
      | None => Raise (ValueError "time data does not match format")
      end
  | None => Ok None
  | Some _ => Raise (ValueError "time data does not match format")
  end.

(** [series.apply(lambda x: f(x))] on a column of timestamps. *)
Definition apply_time (f : Timestamp -> Z) (a : option Cell) : result (option Cell) :=
  match a with
  | Some (Time t) => Ok (Some (Num (f t)))
  | None => Ok None
  | Some _ => Raise (AttributeError "weekday")
  end.

Definition days_of_the_week (wday : Z) : option string :=
  match wday with
  | 0 => Some "Monday"
  | 1 => Some "Tuesday"
  | 2 => Some "Wednesday"
  | 3 => Some "Thursday"
  | 4 => Some "Friday"
  | 5 => Some "Saturday"
  | 6 => Some "Sunday"
  | _ => None
  end.

(** [series.map(days_of_the_week)] *)
Definition map_weekday (a : option Cell) : option Cell :=
  match a with
  | Some (Num d) => Text <$> days_of_the_week d
  | _ => None
  end.

(** [series.astype(int)] *)
Definition astype_int (a : option Cell) : result (option Cell) :=
  match a with
  | Some (Num z) => Ok (Some (Num z))
  | _ => Raise (ValueError "cannot convert to integer")
  end.

(** [pd.merge(df, station_coordinates, on="STATION")]: an inner join;
    a column name both frames have gets the suffixes [_x] and [_y]. *)
Definition merge_right_name (df : DataFrame) (c : string) : string :=
  if has_column df c then c +:+ "_y" else c.

Definition merge_left (df : DataFrame) : DataFrame :=
  rename (rename df "LATITUDE" "LATITUDE_x") "LONGITUDE" "LONGITUDE_x".

Definition station_matches (r : Row) (sc : StationCoordinate) : bool :=
  match r !! "STATION" with
  | Some (Text s) => String.eqb s (station sc)
  | _ => false
  end.

Definition merge_row (df : DataFrame) (r : Row) (sc : StationCoordinate) : Row :=
  <[merge_right_name df "LONGITUDE" := Num (longitude sc)]>
    (<[merge_right_name df "LATITUDE" := Num (latitude sc)]> r).

Definition merge (df : DataFrame) (station_coordinates : list StationCoordinate)
  : result DataFrame :=
  if has_column df "STATION"
  then Ok {| columns := columns (merge_left df)
                        ++ [merge_right_name df "LATITUDE"; merge_right_name df "LONGITUDE"];
             rows := flat_map (fun r => map (merge_row df r)
                                          (List.filter (station_matches r) station_coordinates))
                              (rows (merge_left df)) |}
  else Raise (KeyError "STATION").

(** [df = df.loc[series < k]] and [df = df.loc[series > k]] *)
Definition keep_lt (df : DataFrame) (c : string) (k : Z) : result DataFrame :=
  let* s := getitem df c in
  let* mask := map_m (lt_scalar k) s in
  Ok (loc_rows df mask).

Definition keep_gt (df : DataFrame) (c : string) (k : Z) : result DataFrame :=
  let* s := getitem df c in
  let* mask := map_m (gt_scalar k) s in
  Ok (loc_rows df mask).

(** Lines 22-26: the [DATETIME] and [TURNSTILE_ID] columns. *)
Definition add_keys `{Calendar} (df : DataFrame) : result DataFrame :=
  let* date := getitem df "DATE" in
  let* date := series_add_text date " " in
  let* time := getitem df "TIME" in
  let* text := series_add date time in
  let* datetime := map_m to_datetime_cell text in
  let df := setitem df "DATETIME" datetime in
  let* ca := getitem df "C/A" in
  let* id := series_add_text ca "_" in
  let* unit := getitem df "UNIT" in
  let* id := series_add id unit in
  let* id := series_add_text id "_" in
  let* scp := getitem df "SCP" in
  let* id := series_add id scp in
  let* id := series_add_text id "_" in
  let* station := getitem df "STATION" in
  let* id := series_add id station in
  Ok (setitem df "TURNSTILE_ID" id).

(** Line 29. *)
Definition sorted_frame `{Calendar} (df : DataFrame) : result DataFrame :=
  let* df := add_keys df in
  sort_values df ["TURNSTILE_ID"; "DATETIME"].

(** Lines 30-34: the differences of the counters, blanked where the
    device changes. *)
Definition deaggregate (df : DataFrame) : result DataFrame :=
  let* entries := getitem df "ENTRIES" in
  let* entry_diffs := diff entries in
  let df := setitem df "entry_diffs" entry_diffs in
  let* exits := getitem df "EXITS" in
  let* exit_diffs := diff exits in
  let df := setitem df "exit_diffs" exit_diffs in
  let* id := getitem df "TURNSTILE_ID" in
  let mask := series_ne id (shift id) in
  let df := {| columns := columns df; rows := loc_set_nan "entry_diffs" (rows df) mask |} in
  let df := {| columns := columns df; rows := loc_set_nan "exit_diffs" (rows df) mask |} in
  Ok df.

(** Lines 37-43. *)
Definition replace_counters (df : DataFrame) : result DataFrame :=
  let df := dropna df in
  let* df := drop df ["ENTRIES"; "EXITS"] in
  let df := rename df "entry_diffs" "ENTRIES" in
  Ok (rename df "exit_diffs" "EXITS").

(** Lines 46-49, as written: the fourth test repeats the second. *)
Definition drop_anomalies (df : DataFrame) : result DataFrame :=
  let* df := keep_lt df "ENTRIES" 3000 in
  let* df := keep_gt df "ENTRIES" 0 in
  let* df := keep_lt df "EXITS" 3000 in
  keep_gt df "ENTRIES" 0.

(** Lines 62-72. *)
Definition add_calendar `{Calendar} (df : DataFrame) : result DataFrame :=
  let* datetime := getitem df "DATETIME" in
  let* wday := map_m (apply_time weekday) datetime in
  let df := setitem df "WDAY" wday in
  let* wday := getitem df "WDAY" in
  let df := setitem df "WEEKDAY" (map map_weekday wday) in
  let* datetime := getitem df "DATETIME" in
  let* wk := map_m (apply_time week) datetime in
  let df := setitem df "WEEK" wk in
  let* datetime := getitem df "DATETIME" in
  let* hr := map_m (apply_time hour) datetime in
  let df := setitem df "HOUR" hr in
  let* entries := getitem df "ENTRIES" in
  let* entries := map_m astype_int entries in
  let df := setitem df "ENTRIES" entries in
  let* exits := getitem df "EXITS" in
  let* exits := map_m astype_int exits in
  Ok (setitem df "EXITS" exits).

(** [cleanse_data(df)]; the table read on line 74 is the argument
    [station_coordinates]. *)
Definition cleanse_data `{Calendar} (station_coordinates : list StationCoordinate)
    (df : DataFrame) : result DataFrame :=
  let df := strip_columns df in
  let df := strip_spaces df in
  do check_column_names (columns df) in
  let* df := sorted_frame df in
  let* df := deaggregate df in
  let* df := replace_counters df in
  let* df := drop_anomalies df in
  let* df := add_calendar df in
  merge df station_coordinates.

End Preprocessing.

(** ** utils.py *)

Module Utils.

(** The order pandas sorts group keys by. *)
Class Ord (K : Type) : Type := compare_key : K -> K -> comparison.

#[export] Instance ord_string : Ord string := String.compare.
#[export] Instance ord_Z : Ord Z := Z.compare.
#[export] Instance ord_bool : Ord bool :=
  fun a b => match a, b with
             | false, true => Lt
             | true, false => Gt
             | _, _ => Eq
             end.
#[export] Instance ord_pair {A B : Type} `{Ord A, Ord B} : Ord (A * B) :=
  fun x y => match compare_key (fst x) (fst y) with
             | Eq => compare_key (snd x) (snd y)
             | o => o
             end.

(** The laws of a strict total order on keys. *)
Class OrdLaws (K : Type) `{Ord K} : Prop := {
  compare_key_eq : forall a b : K, compare_key a b = Eq -> a = b;
  compare_key_refl : forall a : K, compare_key a a = Eq;
  compare_key_antisym : forall a b : K, compare_key b a = CompOpp (compare_key a b);
  compare_key_trans : forall a b c : K,
    compare_key a b = Lt -> compare_key b c = Lt -> compare_key a c = Lt
}.

Section GroupBy.
Context {A K : Type} `{Ord K} (key : A -> K).

Fixpoint insert_key (k : K) (ks : list K) : list K :=
  match ks with
  | [] => [k]
  | x :: rest =>
      match compare_key k x with
      | Lt => k :: ks
      | Eq => ks
      | Gt => x :: insert_key k rest
      end
  end.

(** The distinct keys, ascending. *)
Definition group_keys (rows : list A) : list K :=
  fold_right insert_key [] (map key rows).

Definition has_key (k : K) (r : A) : bool :=
  match compare_key (key r) k with Eq => true | _ => false end.

(** [df.groupby(keys)]: one group per distinct key, the keys
    ascending, each group with its rows in frame order. *)
Definition groupby (rows : list A) : list (K * list A) :=
  map (fun k => (k, List.filter (has_key k) rows)) (group_keys rows).

(** [df.sort_values(keys, ascending=False)]: a stable sort. *)
Fixpoint insert_desc (r : A) (sorted : list A) : list A :=
  match sorted with
  | [] => [r]
  | x :: rest =>
      match compare_key (key r) (key x) with
      | Lt => x :: insert_desc r rest
      | _ => r :: sorted
      end
  end.

Definition sort_desc (rows : list A) : list A := fold_right insert_desc [] rows.

End GroupBy.

(** The numeric columns of the frame that are no grouping key. *)
Record Values (N : Type) : Type :=
  { ENTRIES : N; EXITS : N; WEEK : N; HOUR : N; index : N }.
Arguments ENTRIES {N} _.
Arguments EXITS {N} _.
Arguments WEEK {N} _.
Arguments HOUR {N} _.
Arguments index {N} _.

(** A row of [df], and of [daily_entries]: the columns the function
    names.  Columns that are not numeric are left out of a sum. *)
Record Reading : Type :=
  { STATION : string; WDAY : Z; LATITUDE : Z; LONGITUDE : Z; values : Values Z }.

(** A row of the averaged frame before line 21 drops four columns. *)
Record Mean : Type :=
  { mean_STATION : string; mean_WEEKEND : bool; mean_LATITUDE : Z; mean_LONGITUDE : Z;
    mean_WDAY : Q; mean_values : Values Q }.

(** A row of [average_daily_week_v_weekend_entries] after line 21. *)
Record Average : Type :=
  { avg_STATION : string; avg_WEEKEND : bool; avg_LATITUDE : Z; avg_LONGITUDE : Z;
    avg_ENTRIES : Q; avg_EXITS : Q }.

(** A row of the result. *)
Record Difference : Type :=
  { diff_STATION : string; diff_LATITUDE : Z; diff_LONGITUDE : Z;
    Entry_diffs : Q; Exit_diffs : Q }.

Definition sum_Z (zs : list Z) : Z := fold_right Z.add 0 zs.

Definition mean_Z (zs : list Z) : Q :=
  (inject_Z (sum_Z zs) / inject_Z (Z.of_nat (length zs)))%Q.

Definition column (f : Values Z -> Z) (rows : list Reading) : list Z :=
  map (fun r => f (values r)) rows.

(** Lines 13-14: the keys and the sums of one group. *)
Definition daily_key (r : Reading) : string * (Z * (Z * Z)) :=
  (STATION r, (WDAY r, (LATITUDE r, LONGITUDE r))).

Definition sum_group (g : (string * (Z * (Z * Z))) * list Reading) : Reading :=
  let '(s, (d, (lat, lon)), rows) := g in
  {| STATION := s; WDAY := d; LATITUDE := lat; LONGITUDE := lon;
     values := {| ENTRIES := sum_Z (column ENTRIES rows);
                  EXITS := sum_Z (column EXITS rows);
                  WEEK := sum_Z (column WEEK rows);
                  HOUR := sum_Z (column HOUR rows);
                  index := sum_Z (column index rows) |} |}.

(** Lines 13-15. *)
Definition daily_entries (df : list Reading) (week : Z) : list Reading :=
  let this_week := List.filter (fun r => WEEK (values r) =? week) df in
  let sums := map sum_group (groupby daily_key this_week) in
  sort_desc (fun r => (STATION r, WDAY r)) sums.

(** Line 17. *)
Definition WEEKEND (r : Reading) : bool := 4 <? WDAY r.

(** Lines 19-20: the keys and the means of one group. *)
Definition average_key (r : Reading) : string * (bool * (Z * Z)) :=
  (STATION r, (WEEKEND r, (LATITUDE r, LONGITUDE r))).

Definition mean_group (g : (string * (bool * (Z * Z))) * list Reading) : Mean :=
  let '(s, (w, (lat, lon)), rows) := g in
  {| mean_STATION := s; mean_WEEKEND := w; mean_LATITUDE := lat; mean_LONGITUDE := lon;
     mean_WDAY := mean_Z (map WDAY rows);
     mean_values := {| ENTRIES := mean_Z (column ENTRIES rows);
                       EXITS := mean_Z (column EXITS rows);
                       WEEK := mean_Z (column WEEK rows);
                       HOUR := mean_Z (column HOUR rows);
                       index := mean_Z (column index rows) |} |}.

(** Line 21: [.drop(["WDAY", "index", "WEEK", "HOUR"], axis=1)]. *)
Definition drop_columns (m : Mean) : Average :=
  {| avg_STATION := mean_STATION m; avg_WEEKEND := mean_WEEKEND m;
     avg_LATITUDE := mean_LATITUDE m; avg_LONGITUDE := mean_LONGITUDE m;
     avg_ENTRIES := ENTRIES (mean_values m); avg_EXITS := EXITS (mean_values m) |}.

(** Lines 19-21. *)
Definition averages (daily : list Reading) : list Average :=
  map (fun g => drop_columns (mean_group g)) (groupby average_key daily).

(** Lines 23-26: [groupby(["STATION", "LATITUDE", "LONGITUDE"])
    .diff(periods=-1)] on one column: each row minus the next row of
    its group, [NaN] where the group has no next row. *)
Definition same_station (a b : Average) : bool :=
  String.eqb (avg_STATION a) (avg_STATION b)
  && (avg_LATITUDE a =? avg_LATITUDE b)
  && (avg_LONGITUDE a =? avg_LONGITUDE b).

Fixpoint group_diff (f : Average -> Q) (rows : list Average) : list (option Q) :=
  match rows with
  | [] => []
  | r :: rest =>
      match List.find (same_station r) rest with
      | Some next => Some (f r - f next)%Q
      | None => None
      end :: group_diff f rest
  end.

(** Lines 28-30: [dropna(how='any')], then the drop of three columns. *)
Fixpoint dropna_drop (rows : list Average) (entry_diffs exit_diffs : list (option Q))
  : list Difference :=
  match rows, entry_diffs, exit_diffs with
  | r :: rows', e :: es, x :: xs =>
      match e, x with
      | Some e, Some x =>
          {| diff_STATION := avg_STATION r; diff_LATITUDE := avg_LATITUDE r;
             diff_LONGITUDE := avg_LONGITUDE r; Entry_diffs := e; Exit_diffs := x |}
          :: dropna_drop rows' es xs
      | _, _ => dropna_drop rows' es xs
      end
  | _, _, _ => []
  end.

(** [weekday_weekend_traffic_differences(df, week)] *)
Definition weekday_weekend_traffic_differences (df : list Reading) (week : Z)
  : list Difference :=
  let daily_entries := daily_entries df week in
  let average_daily_week_v_weekend_entries := averages daily_entries in
  let entry_diffs := group_diff avg_ENTRIES average_daily_week_v_weekend_entries in
  let exit_diffs := group_diff avg_EXITS average_daily_week_v_weekend_entries in
  dropna_drop average_daily_week_v_weekend_entries entry_diffs exit_diffs.

End Utils.

(** ** A calendar for the timestamps

    The proleptic Gregorian calendar on seconds since 1970-01-01, and
    the reading of a text in the zero-padded layout the MTA files use
    for [%m/%d/%Y %H:%M:%S]. *)

Module Gregorian.
Import Pandas Preprocessing.

Definition digit (c : ascii) : option Z :=
  let n := Z.of_nat (nat_of_ascii c) in
  if (48 <=? n) && (n <=? 57) then Some (n - 48) else None.

Fixpoint number (acc : Z) (cs : list ascii) : option Z :=
  match cs with
  | [] => Some acc
  | c :: rest =>
      match digit c with
      | Some d => number (acc * 10 + d) rest
      | None => None
      end
  end.

Definition is_leap (y : Z) : bool :=
  ((y mod 4 =? 0) && negb (y mod 100 =? 0)) || (y mod 400 =? 0).

Definition days_in_month (y m : Z) : Z :=
  match m with
  | 2 => if is_leap y then 29 else 28
  | 4 | 6 | 9 | 11 => 30
  | _ => 31
  end.

(** Days from 1970-01-01 to the civil date [y]-[m]-[d]. *)
Definition days_from_civil (y m d : Z) : Z :=
  let y' := if m <=? 2 then y - 1 else y in
  let era := y' / 400 in
  let yoe := y' - era * 400 in
  let doy := (153 * (if 2 <? m then m - 3 else m + 9) + 2) / 5 + d - 1 in
  let doe := yoe * 365 + yoe / 4 - yoe / 100 + doy in
  era * 146097 + doe - 719468.

(** The civil year of a day count. *)
Definition year_of_days (days : Z) : Z :=
  let z := days + 719468 in
  let era := z / 146097 in
  let doe := z - era * 146097 in
  let yoe := (doe - doe / 1460 + doe / 36524 - doe / 146096) / 365 in
  let doy := doe - (365 * yoe + yoe / 4 - yoe / 100) in
  let mp := (5 * doy + 2) / 153 in
  let m := if mp <? 10 then mp + 3 else mp - 9 in
  if m <=? 2 then yoe + era * 400 + 1 else yoe + era * 400.

Definition timestamp (y m d hh mm ss : Z) : option Timestamp :=
  if (1 <=? m) && (m <=? 12) && (1 <=? d) && (d <=? days_in_month y m)
     && (hh <? 24) && (mm <? 60) && (ss <? 60)
  then Some (days_from_civil y m d * 86400 + hh * 3600 + mm * 60 + ss)
  else None.

Definition parse (s : string) : option Timestamp :=
  match list_ascii_of_string s with
  | [m1; m2; a; d1; d2; b; y1; y2; y3; y4; c; h1; h2; e; n1; n2; f; s1; s2] =>
      if Ascii.eqb a "/" && Ascii.eqb b "/" && Ascii.eqb c " "
         && Ascii.eqb e ":" && Ascii.eqb f ":"
      then
        match number 0 [m1; m2], number 0 [d1; d2], number 0 [y1; y2; y3; y4],
              number 0 [h1; h2], number 0 [n1; n2], number 0 [s1; s2] with
        | Some m, Some d, Some y, Some hh, Some mm, Some ss => timestamp y m d hh mm ss
        | _, _, _, _, _, _ => None
        end
      else None
  | _ => None
  end.

Definition days_of (t : Timestamp) : Z := t / 86400.

(** Monday is 0; 1970-01-01 was a Thursday. *)
Definition weekday_of (t : Timestamp) : Z := (days_of t + 3) mod 7.

Definition hour_of (t : Timestamp) : Z := (t mod 86400) / 3600.

(** The ISO week: the week of the Thursday of the same week, counted
    in the year of that Thursday. *)
Definition week_of (t : Timestamp) : Z :=
  let thursday := days_of t - weekday_of t + 3 in
  (thursday - days_from_civil (year_of_days thursday) 1 1) / 7 + 1.

Definition calendar : Calendar :=
  {| strptime := parse; weekday := weekday_of; week := week_of; hour := hour_of |}.

End Gregorian.

(** ** The properties stated about the code *)

Module Spec.
Import Py ImportData.

(** The (date, url) rows of a link table whose dates are converted. *)
Definition entries (dates : list (option datetime)) (urls : list string)
  : list (option datetime * string) :=
  combine dates urls.

(** A catalog entry dated strictly after [start_date] and no later
    than [end_date]; an entry without a date is in no range. *)
Definition dated_within (start_date end_date : datetime) (e : option datetime * string)
  : Prop :=
  match fst e with
  | Some t => start_date < t /\ t <= end_date
  | None => False
  end.

#[export] Instance dated_within_dec start_date end_date e :
  Decision (dated_within start_date end_date e).
Proof. unfold dated_within. destruct (fst e); apply _. Defined.

(** Per-entry conversion of the dates: the column is converted, a
    text that parses carries its date and one that does not carries
    the sentinel. *)
Definition converted_per_entry `{World} (anchors : list Anchor) : Prop :=
  exists df dates,
    find_links anchors = Ok df /\
    Date df = Datetime64 dates /\
    Forall2 (fun link d => d = match to_datetime (fst link) with
                               | Some parsed => parsed
                               | None => None
                               end)
            (turnstile_links anchors) dates.

(** The result of [import_data] does not depend on when the module
    was loaded. *)
Definition independent_of_load_time `{World}
    (start_date : datetime) (end_date : option datetime) (page : option string) : Prop :=
  forall loaded_at loaded_at',
    import_data loaded_at start_date end_date page
    = import_data loaded_at' start_date end_date page.


(** The days on which readings were taken. *)
Definition days (obs : list Utils.Reading) : list Z :=
  nodup Z.eq_dec (map Utils.WDAY obs).







End Spec.

(** ** Concrete pages, files and frames *)

Module Fixtures.
Import Py ImportData.

Definition anchor (href : option string) (txt : string) : Anchor :=
  {| attrs := match href with
              | Some h => {["href" := h]}
              | None => ∅
              end;
     text := txt |}.

(** Midnight of three consecutive Saturdays, in seconds. *)
Definition apr27 : datetime := 1556323200.
Definition may04 : datetime := 1556928000.
Definition may11 : datetime := 1557532800.

Definition known_dates (s : string) : option (option datetime) :=
  if String.eqb s "Saturday, April 27, 2019" then Some (Some apr27)
  else if String.eqb s "Saturday, May 04, 2019" then Some (Some may04)
  else if String.eqb s "Saturday, May 11, 2019" then Some (Some may11)
  else if String.eqb s "" then Some None
  else None.

(** A catalog page with three data files among other links. *)
Definition page : list Anchor :=
  [ anchor None "top";
    anchor (Some "index.html") "Developers";
    anchor (Some "data/nyct/turnstile/turnstile_190511.txt") "Saturday, May 11, 2019";
    anchor (Some "data/nyct/turnstile/turnstile_190504.txt") "Saturday, May 04, 2019";
    anchor (Some "data/nyct/turnstile/turnstile_190427.txt") "Saturday, April 27, 2019" ].

(** A page without data files. *)
Definition page_without_data : list Anchor :=
  [ anchor None "top"; anchor (Some "index.html") "Developers" ].

(** A page on which one display text is no date. *)
Definition page_with_bad_date : list Anchor :=
  [ anchor (Some "data/nyct/turnstile/turnstile_190511.txt") "Saturday, May 11, 2019";
    anchor (Some "data/nyct/turnstile/turnstile_190504.txt") "latest file" ].

Definition url (file : string) : string :=
  "http://web.mta.info/developers/data/nyct/turnstile/" +:+ file.

(** Every file is served, as a table of one line naming it. *)
Definition all_served (link : string) : result (list string) := Ok [link].

(** The file of May 4 is missing on the server. *)
Definition may04_missing (link : string) : result (list string) :=
  if String.eqb link (url "turnstile_190504.txt") then Raise (HTTPError link)
  else Ok [link].

Definition web (anchors : list Anchor) (csv : string -> result (list string)) : World :=
  {| requests_get := fun _ => Ok (200, "<html>");
     find_all_a := fun _ => anchors;
     to_datetime := known_dates;
     Table := list string;
     empty_table := [];
     append := fun df other => app df other;
     read_csv := csv |}.

(** Raw readings.  Two devices of one station, out of order, with
    the padding of the published files in the header and the cells. *)
Definition reading (ca unit scp station date time : string) (entries exits : Z)
  : gmap string Pandas.Cell :=
  list_to_map
    [ ("C/A", Pandas.Text ca); ("UNIT", Pandas.Text unit); ("SCP", Pandas.Text scp);
      ("STATION", Pandas.Text station); ("LINENAME", Pandas.Text "NQR456W");
      ("DIVISION", Pandas.Text "BMT"); ("DATE", Pandas.Text date);
      ("TIME", Pandas.Text time); ("DESC", Pandas.Text "REGULAR");
      ("ENTRIES", Pandas.Num entries);
      ("EXITS               ", Pandas.Num exits) ].

Definition raw_header : list string :=
  ["C/A"; "UNIT"; "SCP"; "STATION"; "LINENAME"; "DIVISION"; "DATE"; "TIME"; "DESC";
   "ENTRIES"; "EXITS               "].

Definition raw : Pandas.DataFrame :=
  {| Pandas.columns := raw_header;
     Pandas.rows :=
       [ reading "A002" "R051" "02-00-01" "59 ST" "05/04/2019" "04:00:00" 10999 7030;
         reading "A002" "R051" "02-00-00" "59 ST" "05/04/2019" "00:00:00" 150 200;
         reading "A002" "R051" "02-00-01" "59 ST  " "05/03/2019" "20:00:00" 5000 7000;
         reading "A002" "R051" "02-00-00" "59 ST" "05/03/2019" "20:00:00" 100 200;
         reading "A002" "R051" "02-00-01" "59 ST" "05/04/2019" "00:00:00" 8000 7010;
         reading "A002" "R051" "02-00-00" "59 ST" "05/04/2019" "04:00:00" 180 190 ] |}.

(** The same file with its ninth column under another name. *)
Definition raw_misnamed : Pandas.DataFrame :=
  {| Pandas.columns := map (fun c => if String.eqb c "DESC" then "DESCRIPTION" else c)
                           raw_header;
     Pandas.rows := map (Pandas.rename_cell "DESC" "DESCRIPTION") (Pandas.rows raw) |}.

(** The same file without its last column. *)
Definition raw_without_exits : Pandas.DataFrame :=
  {| Pandas.columns := removelast raw_header;
     Pandas.rows := map (delete "EXITS               ") (Pandas.rows raw) |}.


(** Coordinates in millionths of a degree. *)
Definition station_coordinates : list Preprocessing.StationCoordinate :=
  [ {| Preprocessing.station := "59 ST";
       Preprocessing.latitude := 40762660;
       Preprocessing.longitude := -73967258 |} ].

Definition empty_frame : Pandas.DataFrame := {| Pandas.columns := []; Pandas.rows := [] |}.

(** What [cleanse_data] returns on [raw] and on [raw_misnamed]. *)
Definition cleansed : Pandas.DataFrame :=
  Eval vm_compute in
    match @Preprocessing.cleanse_data Gregorian.calendar station_coordinates raw with
    | Py.Ok df => df
    | Py.Raise _ => empty_frame
    end.

Definition cleansed_misnamed : Pandas.DataFrame :=
  Eval vm_compute in
    match @Preprocessing.cleanse_data Gregorian.calendar station_coordinates raw_misnamed with
    | Py.Ok df => df
    | Py.Raise _ => empty_frame
    end.

(** Normalized readings of week 18: 59 ST on Thursday (twice), Friday
    and Saturday, GRD CNTRL on Friday alone; and one of week 19. *)
Definition normalized (s : string) (lat lon wday week hour entries exits idx : Z)
  : Utils.Reading :=
  {| Utils.STATION := s; Utils.WDAY := wday; Utils.LATITUDE := lat; Utils.LONGITUDE := lon;
     Utils.values := {| Utils.ENTRIES := entries; Utils.EXITS := exits;
                        Utils.WEEK := week; Utils.HOUR := hour; Utils.index := idx |} |}.

Definition week18 : list Utils.Reading :=
  [ normalized "59 ST" 40762660 (-73967258) 3 18 8 100 40 0;
    normalized "GRD CNTRL" 40751776 (-73976848) 4 18 8 900 700 1;
    normalized "59 ST" 40762660 (-73967258) 5 18 12 50 20 2;
    normalized "59 ST" 40762660 (-73967258) 3 18 12 200 60 3;
    normalized "59 ST" 40762660 (-73967258) 4 18 8 150 80 4;
    normalized "59 ST" 40762660 (-73967258) 0 19 8 999 999 5 ].

(** The cells of a frame in column order, for reading a result. *)
Definition cells (cs : list string) (df : Pandas.DataFrame)
  : list (list (option Pandas.Cell)) :=
  map (fun r : gmap string Pandas.Cell => map (fun c => r !! c) cs) (Pandas.rows df).

End Fixtures.

(** ** import_data.py: theorems *)

Module ImportDataFacts.
Import Py ImportData Spec Fixtures.

Lemma loc_combine {A B : Type} (xs : list A) (ys : list B) (mask : list bool) :
  combine (loc xs mask) (loc ys mask) = loc (combine xs ys) mask.
Proof.
  revert ys mask.
  induction xs as [|x xs IH]; intros [|y ys] [|b mask]; simpl; try reflexivity.
  - destruct b; simpl; [reflexivity|]. now destruct (loc xs mask).
  - destruct b; simpl; now rewrite IH.
Qed.

Lemma loc_in_range start_date end_date (dates : list (option datetime)) (urls : list string) :
  loc (combine dates urls) (map (in_range start_date end_date) dates)
  = filter (dated_within start_date end_date) (entries dates urls).
Proof.
  unfold entries. revert urls.
  induction dates as [|d dates IH]; intros [|u urls]; simpl; try reflexivity.
  rewrite filter_cons, <- IH.
  destruct (decide (dated_within start_date end_date (d, u))) as [Hin|Hout];
    unfold dated_within in *; simpl in *; destruct d as [t|]; simpl; try tauto.
  - destruct Hin as [H1 H2].
    apply Z.ltb_lt in H1. apply Z.leb_le in H2. now rewrite H1, H2.
  - destruct (start_date <? t) eqn:H1; destruct (t <=? end_date) eqn:H2;
      simpl; try reflexivity.
    apply Z.ltb_lt in H1. apply Z.leb_le in H2. tauto.
Qed.

Lemma select_links_datetime64 start_date end_date dates urls :
  select_links start_date end_date {| Date := Datetime64 dates; Hyperlink := urls |}
  = Ok {| Date := Datetime64 (loc dates (map (in_range start_date end_date) dates));
          Hyperlink := loc urls (map (in_range start_date end_date) dates) |}.
Proof. reflexivity. Qed.

Lemma loc_in_range_dates start_date end_date (dates : list (option datetime)) :
  ~ In None (loc dates (map (in_range start_date end_date) dates)).
Proof.
  induction dates as [|[t|] dates IH]; simpl; [tauto| |exact IH].
  destruct ((start_date <? t) && (t <=? end_date)); simpl; [|exact IH].
  intros [Heq|Hin]; [discriminate|tauto].
Qed.

Lemma empty_range_selects_nothing start_date (es : list (option datetime * string)) :
  filter (dated_within start_date start_date) es = [].
Proof.
  induction es as [|[[t|] u] es IH]; [reflexivity| |];
    rewrite filter_cons; destruct (decide _) as [Hin|_]; try exact IH;
    unfold dated_within in Hin; simpl in Hin; [lia|tauto].
Qed.

(** C5: the links kept by lines 37-39 are exactly the catalog
    entries dated strictly after the start date and no later than
    the end date, in catalog order; an empty range (start = end)
    keeps none. *)
Theorem select_links_keeps_dates_in_range :
  forall start_date end_date dates urls,
  exists kept_dates kept_urls,
    select_links start_date end_date {| Date := Datetime64 dates; Hyperlink := urls |}
    = Ok {| Date := Datetime64 kept_dates; Hyperlink := kept_urls |} /\
    entries kept_dates kept_urls
    = filter (dated_within start_date end_date) (entries dates urls) /\
    filter (dated_within start_date start_date) (entries dates urls) = [].
Proof.
  intros start_date end_date dates urls.
  eexists _, _. split; [apply select_links_datetime64|]. split.
  - unfold entries at 1. rewrite loc_combine. apply loc_in_range.
  - apply empty_range_selects_nothing.
Qed.

(** The catalog [D-1, D, D+1] with start D-1 and end D keeps D alone. *)
Example select_links_three_saturdays :
  select_links apr27 may04
    {| Date := Datetime64 [Some apr27; Some may04; Some may11];
       Hyperlink := ["a"; "b"; "c"] |}
  = Ok {| Date := Datetime64 [Some may04]; Hyperlink := ["b"] |}.
Proof. reflexivity. Qed.

Example import_data_all_served :
  @import_data (web page all_served) may11 apr27 (Some may04) None
  = Ok [url "turnstile_190504.txt"].
Proof. vm_compute. reflexivity. Qed.

(** C7: with the file of May 4 missing on the server, the run over
    the range (April 27, May 11] does not skip it: the [except]
    clause names [HTTPError], which the module never imports, and the
    run ends with a [NameError]; the file of May 11, fetched before,
    is lost with it. *)
Theorem import_data_aborts_on_one_missing_file :
  @import_data (web page may04_missing) may11 apr27 (Some may11) None
  = Raise (NameError "HTTPError") /\
  @import_data (web page all_served) may11 apr27 (Some may11) None
  = Ok [url "turnstile_190511.txt"; url "turnstile_190504.txt"].
Proof. split; vm_compute; reflexivity. Qed.

(** Any failing [read_csv] in the loop ends the run. *)
Lemma fetch_all_aborts `{World} (links : list string) :
  (exists link, In link links /\ raises (read_csv link) = true) ->
  fetch_all links = Raise (NameError "HTTPError").
Proof.
  unfold fetch_all. generalize empty_table.
  induction links as [|l links IH]; intros acc [link [Hin Hraise]]; [destruct Hin|].
  simpl. unfold fetch_one at 1.
  destruct (read_csv l) as [csv|e] eqn:Hl; simpl; [|reflexivity].
  apply IH. exists link. split; [|exact Hraise].
  destruct Hin as [->|Hin]; [|exact Hin]. rewrite Hl in Hraise. discriminate.
Qed.

Lemma find_links_no_match `{World} (anchors : list Anchor) :
  turnstile_links anchors = [] ->
  find_links anchors = Raise (NameError "RunTimeError").
Proof. intros Hnone. unfold find_links. now rewrite Hnone. Qed.

Lemma to_datetime_column_length `{World} (texts : list string) dates :
  to_datetime_column texts = Some dates -> length dates = length texts.
Proof.
  revert dates. induction texts as [|t texts IH]; intros dates; simpl.
  - now intros [= <-].
  - destruct (to_datetime t); [|discriminate].
    destruct (to_datetime_column texts) as [ds|]; [|discriminate].
    intros [= <-]. simpl. f_equal. now apply IH.
Qed.

(** With a matching anchor the call returns, one row per match. *)
Lemma find_links_one_row_per_match `{World} (anchors : list Anchor) :
  turnstile_links anchors <> [] ->
  exists df, find_links anchors = Ok df /\
             Hyperlink df = map snd (turnstile_links anchors) /\
             height df = length (turnstile_links anchors).
Proof.
  intros Hsome. unfold find_links, height.
  destruct (turnstile_links anchors) as [|l links]; [congruence|]. simpl.
  destruct (to_datetime (fst l)); destruct (to_datetime_column (map fst links));
    eexists; (split; [reflexivity|]); simpl; now rewrite length_map.
Qed.

(** C8: on a page without a data link [find_links] stops on line 75,
    but with the [NameError] of the unbound name [RunTimeError], not
    with the error the line means to raise. *)
Theorem find_links_without_data_raises_name_error :
  @find_links (web page_without_data all_served) page_without_data
  = Raise (NameError "RunTimeError") /\
  @find_links (web page_without_data all_served) page_without_data
  <> Raise (RuntimeError "Could not find any matching links on web-page").
Proof. split; [vm_compute; reflexivity|vm_compute; discriminate]. Qed.

Lemma to_datetime_column_fails `{World} (texts : list string) :
  (exists t, In t texts /\ to_datetime t = None) -> to_datetime_column texts = None.
Proof.
  induction texts as [|t texts IH]; intros [t' [Hin Hbad]]; [destruct Hin|]. simpl.
  destruct Hin as [->|Hin].
  - now rewrite Hbad.
  - rewrite IH by eauto. now destruct (to_datetime t).
Qed.

(** C9, as the code has it: when the text of one matching anchor is
    no date, [find_links] still returns every matching anchor, but
    with the whole [Date] column left as text: no date is converted.
    In a converted column, an entry without a date ([NaT]) is kept
    by no range. *)
Theorem find_links_bad_date_leaves_column_unconverted `{World} (anchors : list Anchor) :
  (exists link, In link (turnstile_links anchors) /\ to_datetime (fst link) = None) ->
  find_links anchors
  = Ok {| Date := Object (map fst (turnstile_links anchors));
          Hyperlink := map snd (turnstile_links anchors) |} /\
  forall start_date end_date dates urls,
  exists kept_dates kept_urls,
    select_links start_date end_date {| Date := Datetime64 dates; Hyperlink := urls |}
    = Ok {| Date := Datetime64 kept_dates; Hyperlink := kept_urls |} /\
    ~ In None kept_dates.
Proof.
  intros [link [Hin Hbad]]. split.
  - unfold find_links.
    destruct (turnstile_links anchors) as [|l links] eqn:Hlinks; [destruct Hin|].
    cbn [length Nat.eqb].
    rewrite to_datetime_column_fails; [reflexivity|].
    exists (fst link). split; [now apply in_map|exact Hbad].
  - intros start_date end_date dates urls. eexists _, _.
    split; [apply select_links_datetime64|apply loc_in_range_dates].
Qed.

Lemma find_links_bad_date_witness :
  @find_links (web page_with_bad_date all_served) page_with_bad_date
  = Ok {| Date := Object ["Saturday, May 11, 2019"; "latest file"];
          Hyperlink := [url "turnstile_190511.txt"; url "turnstile_190504.txt"] |}.
Proof.
  apply (@find_links_bad_date_leaves_column_unconverted
           (web page_with_bad_date all_served) page_with_bad_date).
  exists ("latest file", url "turnstile_190504.txt").
  split; [vm_compute; tauto|reflexivity].
Defined.

(** C9, as stated, fails: on a page with one bad display text the
    date of the other entry is not converted either. *)
Lemma find_links_converts_no_date_after_one_failure :
  ~ @converted_per_entry (web page_with_bad_date all_served) page_with_bad_date.
Proof.
  intros [df [dates [Hdf [Hdate _]]]].
  vm_compute in Hdf. injection Hdf as <-. discriminate Hdate.
Qed.

(** The range filter on an unconverted column compares text with a
    [datetime] and raises. *)
Lemma select_links_unconverted_raises start_date end_date t texts urls :
  raises (select_links start_date end_date
            {| Date := Object (t :: texts); Hyperlink := urls |}) = true.
Proof. reflexivity. Qed.

(** C10, as the code has it: with the end date supplied, the result
    of [import_data] is the same whenever the module was loaded. *)
Theorem import_data_with_end_date_ignores_load_time `{World} :
  forall start_date end_date page,
    independent_of_load_time start_date (Some end_date) page.
Proof. intros start_date end_date page loaded_at loaded_at'. reflexivity. Qed.

(** C10, as stated, fails: with the end date omitted the default is
    the time the module was loaded, and two loads give two results. *)
Lemma import_data_default_end_date_depends_on_load_time :
  ~ @independent_of_load_time (web page all_served) may04 None None.
Proof.
  intros Hsame. specialize (Hsame may04 may11).
  vm_compute in Hsame. discriminate Hsame.
Qed.

End ImportDataFacts.


(** ** Facts about the pandas operations *)

Module PandasFacts.
Import Py Pandas.

Lemma bind_ok {A B : Type} (m : result A) (k : A -> result B) (b : B) :
  Py.bind m k = Ok b -> exists a, m = Ok a /\ k a = Ok b.
Proof. destruct m as [a|e]; simpl; [eauto|discriminate]. Qed.

(** Splits a hypothesis [let* x := m in k = Ok b]. *)
Tactic Notation "ok_inv" hyp(H) "as" ident(x) ident(Hx) :=
  apply bind_ok in H; destruct H as [x [Hx H]].

Lemma map_m_ok {A B : Type} (f : A -> result B) (xs : list A) (ys : list B) :
  map_m f xs = Ok ys -> Forall2 (fun x y => f x = Ok y) xs ys.
Proof.
  revert ys. induction xs as [|x xs IH]; intros ys Hm; simpl in Hm.
  - injection Hm as <-. constructor.
  - ok_inv Hm as y Hy. ok_inv Hm as ys' Hys. injection Hm as <-. constructor; auto.
Qed.

Lemma cell_eqb_eq (a b : Cell) : cell_eqb a b = true -> a = b.
Proof.
  destruct a, b; simpl; try discriminate; intros Heq; f_equal.
  - now apply String.eqb_eq.
  - now apply Z.eqb_eq.
  - now apply Z.eqb_eq.
Qed.

Lemma ne_cells_false (a b : option Cell) :
  ne_cells a b = false -> exists c, a = Some c /\ b = Some c.
Proof.
  destruct a as [x|], b as [y|]; simpl; try discriminate.
  intros Hne. apply negb_false_iff, cell_eqb_eq in Hne. subst. eauto.
Qed.

Lemma sub_cells_some (cur prev : option Cell) (v : Cell) :
  sub_cells cur prev = Ok (Some v) ->
  exists a b, cur = Some (Num a) /\ prev = Some (Num b) /\ v = Num (a - b).
Proof.
  destruct cur as [[]|], prev as [[]|]; simpl; try discriminate.
  intros [= <-]. eauto.
Qed.

Lemma getitem_ok (df : DataFrame) (c : string) (s : Series) :
  getitem df c = Ok s ->
  has_column df c = true /\ s = map (fun r : Row => r !! c) (rows df).
Proof. unfold getitem. destruct (has_column df c); [|discriminate]. now intros [= <-]. Qed.

Lemma set_cell_eq (c : string) (v : option Cell) (r : Row) : set_cell c v r !! c = v.
Proof. unfold set_cell. apply lookup_partial_alter_eq. Qed.

Lemma set_cell_ne (c c' : string) (v : option Cell) (r : Row) :
  c <> c' -> set_cell c v r !! c' = r !! c'.
Proof. intros Hne. unfold set_cell. now apply lookup_partial_alter_ne. Qed.


Lemma rename_cell_other (old new c : string) (r : Row) :
  c <> old -> c <> new -> rename_cell old new r !! c = r !! c.
Proof.
  intros Hold Hnew. unfold rename_cell.
  rewrite set_cell_ne by congruence. now apply lookup_delete_ne.
Qed.

Lemma drop_cells_other (cs : list string) (c : string) (r : Row) :
  ~ In c cs -> drop_cells cs r !! c = r !! c.
Proof.
  induction cs as [|c0 cs IH]; simpl; [reflexivity|]. intros Hnot.
  rewrite lookup_delete_ne by tauto. apply IH. tauto.
Qed.

(** The rows of [df[c] = s], position by position. *)
Lemma zip_set_lookup (c : string) (rs : list Row) (s : Series) (i : nat) (r' : Row) :
  zip_set c rs s !! i = Some r' ->
  exists r v, rs !! i = Some r /\ s !! i = Some v /\ r' = set_cell c v r.
Proof.
  revert s i. induction rs as [|r rs IH]; intros [|v s] i; simpl; try discriminate.
  destruct i as [|i]; simpl.
  - intros [= <-]. eauto.
  - apply IH.
Qed.

Lemma zip_set_length (c : string) (rs : list Row) (s : Series) :
  length s = length rs -> length (zip_set c rs s) = length rs.
Proof.
  revert s. induction rs as [|r rs IH]; intros [|v s]; simpl; try discriminate; auto.
Qed.

Lemma loc_set_nan_lookup (c : string) (rs : list Row) (mask : list bool) (i : nat)
    (r' : Row) :
  loc_set_nan c rs mask !! i = Some r' ->
  exists (r : Row) (b : bool), rs !! i = Some r /\ mask !! i = Some b /\
              r' = if b then set_cell c None r else r.
Proof.
  revert mask i. induction rs as [|r rs IH]; intros [|b mask] i; simpl; try discriminate.
  destruct i as [|i]; simpl.
  - intros [= <-]. eauto.
  - apply IH.
Qed.

Lemma loc_In (rs : list Row) (mask : list bool) (r : Row) :
  In r (loc rs mask) -> In r rs.
Proof.
  revert mask. induction rs as [|x rs IH]; intros [|b mask]; simpl; try tauto.
  destruct b; simpl; intros Hin; [destruct Hin|]; eauto.
Qed.

(** A row kept by [df.loc[mask]] has [True] in the mask. *)
Lemma loc_mask {A : Type} (f : A -> result bool) (g : Row -> A) (rs : list Row)
    (mask : list bool) (r : Row) :
  map_m f (map g rs) = Ok mask -> In r (loc rs mask) -> f (g r) = Ok true.
Proof.
  revert mask. induction rs as [|x rs IH]; intros mask Hm Hin; simpl in *.
  - injection Hm as <-. destruct Hin.
  - ok_inv Hm as b Hb. ok_inv Hm as bs Hbs. injection Hm as <-. simpl in Hin.
    destruct b; [destruct Hin as [<-|Hin]|]; eauto.
Qed.

(** The rows of [df[c] = f(df[c0])], row by row. *)
Lemma zip_set_map_m (f : option Cell -> result (option Cell)) (c c0 : string)
    (rs : list Row) (s : Series) (r' : Row) :
  map_m f (map (fun r : Row => r !! c0) rs) = Ok s ->
  In r' (zip_set c rs s) ->
  exists r v, In r rs /\ f (r !! c0) = Ok v /\ r' = set_cell c v r.
Proof.
  revert s. induction rs as [|r rs IH]; intros s Hm Hin; simpl in *.
  - injection Hm as <-. destruct Hin.
  - ok_inv Hm as y Hy. ok_inv Hm as ys Hys. injection Hm as <-. simpl in Hin.
    destruct Hin as [<-|Hin]; [eauto 6|].
    destruct (IH _ Hys Hin) as [r0 [v [Hr0 [Hv Hr']]]]. eauto 6.
Qed.

Lemma zip_set_map (g : option Cell -> option Cell) (c c0 : string)
    (rs : list Row) (r' : Row) :
  In r' (zip_set c rs (map g (map (fun r : Row => r !! c0) rs))) ->
  exists r, In r rs /\ r' = set_cell c (g (r !! c0)) r.
Proof.
  induction rs as [|r rs IH]; simpl; [tauto|].
  intros [<-|Hin]; [eauto|]. destruct (IH Hin) as [r0 [Hr0 Hr']]. eauto.
Qed.

Lemma map_lookup {A B : Type} (f : A -> B) (l : list A) (i : nat) :
  map f l !! i = f <$> (l !! i).
Proof.
  revert i. induction l as [|x l IH]; intros [|i]; simpl; try reflexivity. apply IH.
Qed.

(** [series.diff()], position by position: the value minus the one
    before it, the first position having none before it. *)
Lemma diff_from_lookup (p : option Cell) (s d : Series) (i : nat) (v : option Cell) :
  zip_m sub_cells s (shift_from p s) = Ok d -> d !! i = Some v ->
  exists cur prev, s !! i = Some cur /\ (p :: s) !! i = Some prev /\
                   sub_cells cur prev = Ok v.
Proof.
  revert p d i. induction s as [|x s IH]; intros p d i Hd Hi; simpl in Hd.
  - injection Hd as <-. discriminate.
  - ok_inv Hd as z Hz. ok_inv Hd as zs Hzs. injection Hd as <-.
    destruct i as [|i]; simpl in *.
    + injection Hi as <-. eauto.
    + apply (IH x _ _ Hzs Hi).
Qed.

Lemma series_ne_lookup (p : option Cell) (s : Series) (i : nat) (b : bool) :
  series_ne s (shift_from p s) !! i = Some b ->
  exists cur prev, s !! i = Some cur /\ (p :: s) !! i = Some prev /\
                   b = ne_cells cur prev.
Proof.
  revert p i. induction s as [|x s IH]; intros p i; simpl; [discriminate|].
  destruct i as [|i]; simpl.
  - intros [= <-]. eauto.
  - apply IH.
Qed.

(** Assigning one column leaves the others as they were. *)
Lemma zip_set_column (c c' : string) (rs : list Row) (s : Series) (i : nat)
    (x : option Cell) :
  c <> c' ->
  (fun r : Row => r !! c') <$> (zip_set c rs s !! i) = Some x ->
  (fun r : Row => r !! c') <$> (rs !! i) = Some x.
Proof.
  intros Hne Hx. destruct (zip_set c rs s !! i) as [r'|] eqn:Hr'; [|discriminate].
  apply zip_set_lookup in Hr' as (r & v & -> & _ & ->).
  simpl in *. now rewrite set_cell_ne in Hx.
Qed.

Lemma has_column_setitem (df : DataFrame) (c : string) (s : Series) :
  has_column (setitem df c s) c = true.
Proof.
  unfold setitem, has_column at 1. simpl.
  destruct (has_column df c) eqn:Hc; [exact Hc|].
  rewrite existsb_app. simpl. rewrite String.eqb_refl. apply orb_true_r.
Qed.

Lemma has_column_setitem_other (df : DataFrame) (c c' : string) (s : Series) :
  has_column df c' = true -> has_column (setitem df c s) c' = true.
Proof.
  unfold setitem, has_column at 2. simpl. intros Hc'.
  destruct (has_column df c); [exact Hc'|].
  rewrite existsb_app. unfold has_column in Hc'. now rewrite Hc'.
Qed.

Lemma has_column_In (df : DataFrame) (c : string) :
  has_column df c = true <-> In c (columns df).
Proof.
  unfold has_column. rewrite existsb_exists. split.
  - intros [x [Hin Heq]]. apply String.eqb_eq in Heq. now subst.
  - intros Hin. exists c. split; [exact Hin|apply String.eqb_refl].
Qed.

Lemma rename_rows (df : DataFrame) (old new : string) (r' : Row) :
  In r' (rows (rename df old new)) ->
  exists r, In r (rows df) /\
            forall c, c <> old -> c <> new -> r' !! c = r !! c.
Proof.
  unfold rename. destruct (has_column df old); simpl.
  - intros Hin. apply in_map_iff in Hin as (r & <- & Hr).
    exists r. split; [exact Hr|]. intros c Hold Hnew. now apply rename_cell_other.
  - eauto.
Qed.



Lemma drop_ok (df df' : DataFrame) (cs : list string) :
  drop df cs = Ok df' ->
  rows df' = map (drop_cells cs) (rows df) /\
  forall c, ~ In c cs -> has_column df c = true -> has_column df' c = true.
Proof.
  unfold drop. intros Hd. ok_inv Hd as u Hu. injection Hd as <-. simpl.
  split; [reflexivity|]. intros c Hnot Hc.
  apply has_column_In. simpl. apply has_column_In in Hc.
  apply filter_In. split; [exact Hc|].
  apply negb_true_iff. destruct (existsb (String.eqb c) cs) eqn:Hex; [|reflexivity].
  apply existsb_exists in Hex as (x & Hx & Heq). apply String.eqb_eq in Heq. now subst.
Qed.




Lemma insert_row_perm (by_ : list string) (r : Row) (l : list Row) :
  Permutation (insert_row by_ r l) (r :: l).
Proof.
  induction l as [|x l IH]; simpl; [reflexivity|].
  destruct (rows_le by_ r x); [reflexivity|].
  rewrite IH. apply perm_swap.
Qed.

(** [sort_values] rearranges the rows and leaves them ascending. *)
Lemma sort_rows_perm (by_ : list string) (l : list Row) :
  Permutation (sort_rows by_ l) l.
Proof.
  induction l as [|x l IH]; simpl; [reflexivity|].
  rewrite insert_row_perm. now constructor.
Qed.



End PandasFacts.

(** ** preprocessing.py: theorems *)

Module PreprocessingFacts.
Import Py Pandas Preprocessing Fixtures.

Import PandasFacts.

Example gregorian_samples :
  Gregorian.parse "05/03/2019 20:00:00" = Some 1556913600 /\
  Gregorian.weekday_of 1556913600 = 4 /\ Gregorian.week_of 1556913600 = 18 /\
  Gregorian.hour_of 1556913600 = 20 /\
  Gregorian.parse "05/06/2019 08:00:00" = Some 1557129600 /\
  Gregorian.weekday_of 1557129600 = 0 /\ Gregorian.week_of 1557129600 = 19.
Proof. vm_compute. repeat split. Qed.

(** The result of lines 30-34, position by position: the other
    columns are those of the sorted row, and a difference is present
    only where the row before is of the same device; it is then the
    counter of the row minus the counter of the row before. *)
Lemma deaggregate_rows (df d : DataFrame) (i : nat) (r' : Row) :
  deaggregate df = Ok d -> rows d !! i = Some r' ->
  exists cur : Row,
    rows df !! i = Some cur /\
    (forall c, c <> "entry_diffs" -> c <> "exit_diffs" -> r' !! c = cur !! c) /\
    (forall v w, r' !! "entry_diffs" = Some v -> r' !! "exit_diffs" = Some w ->
       exists j (prev : Row) id e0 e1 x0 x1,
         i = S j /\ rows df !! j = Some prev /\
         prev !! "TURNSTILE_ID" = Some id /\ cur !! "TURNSTILE_ID" = Some id /\
         prev !! "ENTRIES" = Some (Num e0) /\ cur !! "ENTRIES" = Some (Num e1) /\
         prev !! "EXITS" = Some (Num x0) /\ cur !! "EXITS" = Some (Num x1) /\
         v = Num (e1 - e0) /\ w = Num (x1 - x0)).
Proof.
  unfold deaggregate. intros Hd Hi.
  ok_inv Hd as entries Hentries. ok_inv Hd as entry_diffs Hentry_diffs.
  ok_inv Hd as exits Hexits. ok_inv Hd as exit_diffs Hexit_diffs.
  ok_inv Hd as ids Hids.
  injection Hd as <-. simpl in Hi.
  apply getitem_ok in Hentries as [_ ->].
  apply getitem_ok in Hexits as [_ ->].
  apply getitem_ok in Hids as [_ ->].
  simpl in *.
  apply loc_set_nan_lookup in Hi as (r2 & b2 & Hr2 & Hb2 & ->).
  apply loc_set_nan_lookup in Hr2 as (r1 & b1 & Hr1 & Hb1 & ->).
  rewrite Hb1 in Hb2. injection Hb2 as <-.
  apply zip_set_lookup in Hr1 as (r0 & w0 & Hr0 & Hw0 & ->).
  apply zip_set_lookup in Hr0 as (cur & v0 & Hcur & Hv0 & ->).
  exists cur. split; [exact Hcur|]. split.
  - intros c Hc1 Hc2.
    destruct b1; repeat rewrite set_cell_ne by congruence; reflexivity.
  - intros v w Hv Hw.
    destruct b1.
    { rewrite set_cell_ne, set_cell_eq in Hv by discriminate. discriminate. }
    rewrite set_cell_ne, set_cell_eq in Hv by discriminate.
    rewrite set_cell_eq in Hw. subst v0 w0.
    apply series_ne_lookup in Hb1 as (idc & idp & Hidc & Hidp & Hne).
    symmetry in Hne. apply ne_cells_false in Hne as (id & -> & ->).
    destruct (diff_from_lookup _ _ _ _ _ Hentry_diffs Hv0) as (ec & ep & Hec & Hep & Hsub).
    destruct (diff_from_lookup _ _ _ _ _ Hexit_diffs Hw0) as (xc & xp & Hxc & Hxp & Hsubx).
    apply sub_cells_some in Hsub as (e1 & e0 & -> & -> & ->).
    apply sub_cells_some in Hsubx as (x1 & x0 & -> & -> & ->).
    destruct i as [|j]; [discriminate Hidp|]. simpl in Hidp, Hep, Hxp.
    rewrite map_lookup in Hidc, Hidp, Hec, Hep, Hxc, Hxp.
    do 2 apply zip_set_column in Hidc; try discriminate.
    do 2 apply zip_set_column in Hidp; try discriminate.
    apply zip_set_column in Hxc; try discriminate.
    apply zip_set_column in Hxp; try discriminate.
    rewrite Hcur in Hidc, Hec, Hxc.
    destruct (rows df !! j) as [prev|] eqn:Hprev; [|discriminate].
    simpl in *.
    exists j, prev, id, e0, e1, x0, x1.
    repeat split; congruence.
Qed.






Lemma keep_lt_rows (df df' : DataFrame) (c : string) (k : Z) (r : Row) :
  keep_lt df c k = Ok df' -> In r (rows df') ->
  In r (rows df) /\ exists z, r !! c = Some (Num z) /\ z < k.
Proof.
  unfold keep_lt. intros Hk Hin.
  ok_inv Hk as s Hs. ok_inv Hk as mask Hmask. injection Hk as <-. simpl in Hin.
  apply getitem_ok in Hs as [_ ->]. split; [eapply loc_In; eauto|].
  pose proof (loc_mask _ _ _ _ _ Hmask Hin) as Hlt. simpl in Hlt.
  destruct (r !! c) as [[]|]; try discriminate.
  injection Hlt as Hlt. apply Z.ltb_lt in Hlt. eauto.
Qed.

Lemma keep_gt_rows (df df' : DataFrame) (c : string) (k : Z) (r : Row) :
  keep_gt df c k = Ok df' -> In r (rows df') ->
  In r (rows df) /\ exists z, r !! c = Some (Num z) /\ k < z.
Proof.
  unfold keep_gt. intros Hk Hin.
  ok_inv Hk as s Hs. ok_inv Hk as mask Hmask. injection Hk as <-. simpl in Hin.
  apply getitem_ok in Hs as [_ ->]. split; [eapply loc_In; eauto|].
  pose proof (loc_mask _ _ _ _ _ Hmask Hin) as Hgt. simpl in Hgt.
  destruct (r !! c) as [[]|]; try discriminate.
  injection Hgt as Hgt. apply Z.ltb_lt in Hgt. eauto.
Qed.

(** Lines 46-49: what the four tests leave of a frame. *)
Lemma drop_anomalies_rows (d2 d3 : DataFrame) (r : Row) :
  drop_anomalies d2 = Ok d3 -> In r (rows d3) ->
  In r (rows d2) /\
  (exists e, r !! "ENTRIES" = Some (Num e) /\ 0 < e < 3000) /\
  (exists x, r !! "EXITS" = Some (Num x) /\ x < 3000).
Proof.
  unfold drop_anomalies. intros Hd Hin.
  ok_inv Hd as a Ha. ok_inv Hd as b Hb. ok_inv Hd as c Hc.
  destruct (keep_gt_rows _ _ _ _ _ Hd Hin) as [Hin3 (e & He & Hpos)].
  destruct (keep_lt_rows _ _ _ _ _ Hc Hin3) as [Hin2 (x & Hx & Hxlt)].
  destruct (keep_gt_rows _ _ _ _ _ Hb Hin2) as [Hin1 _].
  destruct (keep_lt_rows _ _ _ _ _ Ha Hin1) as [Hin0 (e' & He' & Helt)].
  split; [exact Hin0|]. split; [|eauto].
  exists e. split; [exact He|]. rewrite He in He'. injection He' as <-. lia.
Qed.

Lemma astype_int_ok (a v : option Cell) :
  astype_int a = Ok v -> exists z, a = Some (Num z) /\ v = Some (Num z).
Proof. destruct a as [[]|]; simpl; try discriminate. intros [= <-]. eauto. Qed.

(** Lines 62-72 add four columns and keep the two differences. *)
Lemma add_calendar_rows `{Calendar} (d3 d4 : DataFrame) (r4 : Row) :
  add_calendar d3 = Ok d4 -> In r4 (rows d4) ->
  exists r3, In r3 (rows d3) /\
    (exists e, r3 !! "ENTRIES" = Some (Num e) /\ r4 !! "ENTRIES" = Some (Num e)) /\
    (exists x, r3 !! "EXITS" = Some (Num x) /\ r4 !! "EXITS" = Some (Num x)) /\
    (forall c, c <> "WDAY" -> c <> "WEEKDAY" -> c <> "WEEK" -> c <> "HOUR" ->
               c <> "ENTRIES" -> c <> "EXITS" -> r4 !! c = r3 !! c).
Proof.
  unfold add_calendar. intros Hd Hin.
  ok_inv Hd as dt1 Hdt1. ok_inv Hd as wday Hwday. ok_inv Hd as wday' Hwday'.
  ok_inv Hd as dt2 Hdt2. ok_inv Hd as wk Hwk.
  ok_inv Hd as dt3 Hdt3. ok_inv Hd as hr Hhr.
  ok_inv Hd as entries Hentries. ok_inv Hd as entries' Hentries'.
  ok_inv Hd as exits Hexits. ok_inv Hd as exits' Hexits'.
  injection Hd as <-.
  apply getitem_ok in Hdt1 as [_ ->]. apply getitem_ok in Hwday' as [_ ->].
  apply getitem_ok in Hdt2 as [_ ->]. apply getitem_ok in Hdt3 as [_ ->].
  apply getitem_ok in Hentries as [_ ->]. apply getitem_ok in Hexits as [_ ->].
  cbn [rows setitem] in *.
  destruct (zip_set_map_m _ _ _ _ _ _ Hexits' Hin) as (r5 & vx & Hr5 & Hvx & ->).
  destruct (zip_set_map_m _ _ _ _ _ _ Hentries' Hr5) as (r6 & ve & Hr6 & Hve & ->).
  destruct (zip_set_map_m _ _ _ _ _ _ Hhr Hr6) as (r7 & vh & Hr7 & Hvh & ->).
  destruct (zip_set_map_m _ _ _ _ _ _ Hwk Hr7) as (r8 & vw & Hr8 & Hvw & ->).
  apply zip_set_map in Hr8 as (r9 & Hr9 & ->).
  destruct (zip_set_map_m _ _ _ _ _ _ Hwday Hr9) as (r3 & vd & Hr3 & Hvd & ->).
  apply astype_int_ok in Hvx as (x & Hx & ->).
  apply astype_int_ok in Hve as (e & He & ->).
  rewrite set_cell_ne in Hx by discriminate.
  repeat rewrite set_cell_ne in Hx by discriminate.
  repeat rewrite set_cell_ne in He by discriminate.
  exists r3. split; [exact Hr3|]. repeat split.
  - exists e. split; [exact He|].
    rewrite set_cell_ne by discriminate. apply set_cell_eq.
  - exists x. split; [exact Hx|]. apply set_cell_eq.
  - intros c H1 H2 H3 H4 H5 H6. repeat rewrite set_cell_ne by congruence. reflexivity.
Qed.

(** Line 76: the join keeps the columns of the readings. *)
Lemma merge_rows (d4 out : DataFrame) (coords : list StationCoordinate) (r : Row) :
  merge d4 coords = Ok out -> In r (rows out) ->
  exists r4 sc, In r4 (rows d4) /\ In sc coords /\
    r4 !! "STATION" = Some (Text (station sc)) /\
    (forall c, c <> "LATITUDE" -> c <> "LONGITUDE" ->
               c <> "LATITUDE_x" -> c <> "LONGITUDE_x" ->
               c <> "LATITUDE_y" -> c <> "LONGITUDE_y" -> r !! c = r4 !! c).
Proof.
  unfold merge. destruct (has_column d4 "STATION"); [|discriminate].
  intros [= <-] Hin. simpl in Hin.
  apply in_flat_map in Hin as (r1 & Hr1 & Hin).
  apply in_map_iff in Hin as (sc & <- & Hsc).
  apply filter_In in Hsc as [Hsc Hmatch].
  unfold merge_left in Hr1.
  apply rename_rows in Hr1 as (r2 & Hr2 & Hlon).
  apply rename_rows in Hr2 as (r4 & Hr4 & Hlat).
  exists r4, sc. split; [exact Hr4|]. split; [exact Hsc|]. split.
  - unfold station_matches in Hmatch.
    rewrite Hlon, Hlat in Hmatch by discriminate.
    destruct (r4 !! "STATION") as [[s| |]|]; try discriminate.
    apply String.eqb_eq in Hmatch. now subst.
  - intros c H1 H2 H3 H4 H5 H6. unfold merge_row, merge_right_name.
    rewrite !lookup_insert_ne
      by (destruct (has_column _ _); intros <-;
          first [now apply H1|now apply H2|now apply H5|now apply H6]).
    rewrite Hlon, Hlat by congruence. reflexivity.
Qed.



(** Two consecutive readings of one device with ENTRIES 100 then 150
    give a row with ENTRIES 50; the first reading of each device gives
    no row. *)
Example cleanse_data_on_raw :
  @cleanse_data Gregorian.calendar station_coordinates raw = Ok cleansed /\
  cells ["TURNSTILE_ID"; "DATETIME"; "ENTRIES"] cleansed
  = [ [Some (Text "A002_R051_02-00-00_59 ST"); Some (Time 1556928000); Some (Num 50)];
      [Some (Text "A002_R051_02-00-00_59 ST"); Some (Time 1556942400); Some (Num 30)];
      [Some (Text "A002_R051_02-00-01_59 ST"); Some (Time 1556942400); Some (Num 2999)] ].
Proof. split; vm_compute; reflexivity. Qed.

(** What lines 46-49 do guarantee of every row of the result. *)
Lemma cleanse_data_bounds `{Calendar} (station_coordinates : list StationCoordinate)
    (df out : DataFrame) (r : Row) :
  cleanse_data station_coordinates df = Ok out -> In r (rows out) ->
  exists e x, r !! "ENTRIES" = Some (Num e) /\ r !! "EXITS" = Some (Num x) /\
              0 < e < 3000 /\ x < 3000.
Proof.
  unfold cleanse_data. intros Hc Hr.
  ok_inv Hc as checked Hchecked. ok_inv Hc as sorted Hsorted.
  ok_inv Hc as d Hd. ok_inv Hc as d2 Hd2. ok_inv Hc as d3 Hd3. ok_inv Hc as d4 Hd4.
  destruct (merge_rows _ _ _ _ Hc Hr) as (r4 & sc & Hr4 & _ & _ & Hkept4).
  destruct (add_calendar_rows _ _ _ Hd4 Hr4)
    as (r3 & Hr3 & (e & He3 & He4) & (x & Hx3 & Hx4) & _).
  destruct (drop_anomalies_rows _ _ _ Hd3 Hr3) as (_ & (e' & He' & Hebounds) & (x' & Hx' & Hxbound)).
  exists e, x. rewrite !Hkept4 by discriminate.
  repeat split; try assumption; congruence || (assert (e = e') by congruence; lia)
    || (assert (x = x') by congruence; lia).
Qed.

(** C1: on [raw] the device 02-00-00 reads EXITS 200, 200, 190.  The
    result keeps the rows with EXITS 0 and EXITS -10: the fourth test
    (line 49) repeats [ENTRIES > 0] and no test bounds EXITS from
    below.  ENTRIES 3000 (device 02-00-01, 5000 then 8000) is removed
    and ENTRIES 2999 is kept. *)
Theorem cleanse_data_keeps_exits_not_above_zero :
  @cleanse_data Gregorian.calendar station_coordinates raw = Ok cleansed /\
  cells ["TURNSTILE_ID"; "ENTRIES"; "EXITS"] cleansed
  = [ [Some (Text "A002_R051_02-00-00_59 ST"); Some (Num 50); Some (Num 0)];
      [Some (Text "A002_R051_02-00-00_59 ST"); Some (Num 30); Some (Num (-10))];
      [Some (Text "A002_R051_02-00-01_59 ST"); Some (Num 2999); Some (Num 20)] ].
Proof. split; vm_compute; reflexivity. Qed.


(** It raises nothing of its own: the one exception is that of the
    comparison of an [Index] with a list of another length. *)
Lemma check_column_names_outcomes (columns : list string) :
  check_column_names columns = Ok tt \/
  check_column_names columns = Raise (ValueError "Lengths must match to compare").
Proof.
  unfold check_column_names, columns_ne.
  destruct (length columns =? length correct_column_names)%nat; simpl.
  - left. now destruct (existsb id _).
  - now right.
Qed.

(** C3: a file whose ninth column is named DESCRIPTION, not DESC, has
    eleven columns; [check_column_names] returns without an error and
    [cleanse_data] goes on to return its three rows. *)
Theorem check_column_names_accepts_a_wrong_name :
  columns (strip_spaces (strip_columns raw_misnamed)) <> correct_column_names /\
  check_column_names (columns (strip_spaces (strip_columns raw_misnamed))) = Ok tt /\
  @cleanse_data Gregorian.calendar station_coordinates raw_misnamed
  = Ok cleansed_misnamed /\
  length (rows cleansed_misnamed) = 3%nat.
Proof.
  split; [vm_compute; discriminate|]. repeat split; vm_compute; reflexivity.
Qed.

(** A file without the EXITS column does stop the run, with the
    [ValueError] of the comparison on line 120. *)
Example cleanse_data_without_exits :
  @cleanse_data Gregorian.calendar station_coordinates raw_without_exits
  = Raise (ValueError "Lengths must match to compare").
Proof. vm_compute. reflexivity. Qed.

End PreprocessingFacts.

(** ** utils.py: theorems *)

Module UtilsFacts.
Import Utils.

Lemma ascii_compare_refl (a : ascii) : Ascii.compare a a = Eq.
Proof. unfold Ascii.compare. apply N.compare_refl. Qed.

Lemma ascii_compare_trans (a b c : ascii) :
  Ascii.compare a b = Lt -> Ascii.compare b c = Lt -> Ascii.compare a c = Lt.
Proof. unfold Ascii.compare. rewrite !N.compare_lt_iff. lia. Qed.

Lemma string_compare_refl (s : string) : String.compare s s = Eq.
Proof. induction s as [|a s IH]; simpl; [reflexivity|]. now rewrite ascii_compare_refl. Qed.

Lemma string_compare_trans (s1 s2 s3 : string) :
  String.compare s1 s2 = Lt -> String.compare s2 s3 = Lt -> String.compare s1 s3 = Lt.
Proof.
  revert s2 s3. induction s1 as [|a s1 IH]; intros [|b s2] [|c s3]; simpl;
    try discriminate; try reflexivity.
  destruct (Ascii.compare a b) eqn:Hab; try discriminate;
    destruct (Ascii.compare b c) eqn:Hbc; try discriminate; intros H12 H23.
  - apply Ascii.compare_eq_iff in Hab, Hbc. subst.
    rewrite ascii_compare_refl. eauto.
  - apply Ascii.compare_eq_iff in Hab. subst. now rewrite Hbc.
  - apply Ascii.compare_eq_iff in Hbc. subst. now rewrite Hab.
  - now rewrite (ascii_compare_trans a b c).
Qed.

#[export] Instance ord_laws_string : OrdLaws string.
Proof.
  split.
  - apply String.compare_eq_iff.
  - apply string_compare_refl.
  - intros a b. apply String.compare_antisym.
  - apply string_compare_trans.
Qed.

#[export] Instance ord_laws_Z : OrdLaws Z.
Proof.
  split; unfold compare_key, ord_Z.
  - apply Z.compare_eq.
  - apply Z.compare_refl.
  - intros a b. apply Z.compare_antisym.
  - intros a b c. rewrite !Z.compare_lt_iff. lia.
Qed.

#[export] Instance ord_laws_bool : OrdLaws bool.
Proof.
  split; unfold compare_key, ord_bool;
    [intros [] []|intros []|intros [] []|intros [] [] []]; simpl; congruence.
Qed.

#[export] Instance ord_laws_pair {A B : Type} `{OrdLaws A, OrdLaws B} : OrdLaws (A * B).
Proof.
  split; unfold compare_key, ord_pair.
  - intros [a1 b1] [a2 b2]. simpl.
    destruct (compare_key a1 a2) eqn:Ha; try discriminate.
    intros Hb. apply compare_key_eq in Ha, Hb. now subst.
  - intros [a b]. simpl. now rewrite !compare_key_refl.
  - intros [a1 b1] [a2 b2]. simpl.
    rewrite (compare_key_antisym a1 a2).
    destruct (compare_key a1 a2); simpl; try reflexivity. apply compare_key_antisym.
  - intros [a1 b1] [a2 b2] [a3 b3]. simpl.
    destruct (compare_key a1 a2) eqn:H12; try discriminate;
      destruct (compare_key a2 a3) eqn:H23; try discriminate; intros Hb12 Hb23.
    + apply compare_key_eq in H12, H23. subst.
      rewrite compare_key_refl. eapply compare_key_trans; eauto.
    + apply compare_key_eq in H12. subst. now rewrite H23.
    + apply compare_key_eq in H23. subst. now rewrite H12.
    + now rewrite (compare_key_trans a1 a2 a3).
Qed.

Lemma compare_key_eq_iff {K : Type} `{OrdLaws K} (a b : K) :
  compare_key a b = Eq <-> a = b.
Proof. split; [apply compare_key_eq|intros ->; apply compare_key_refl]. Qed.


Section GroupByFacts.
Context {A K : Type} `{OrdLaws K} (key : A -> K).









End GroupByFacts.

Import Spec.




























(** GRD CNTRL, read on a Friday alone, has no row; 59 ST has one. *)
Example differences_of_week18 :
  weekday_weekend_traffic_differences Fixtures.week18 18
  = [ {| diff_STATION := "59 ST"; diff_LATITUDE := 40762660; diff_LONGITUDE := -73967258;
         Entry_diffs := (350 # 2)%Q; Exit_diffs := (140 # 2)%Q |} ].
Proof. vm_compute. reflexivity. Qed.

End UtilsFacts.


(** ** import_data.py: further properties *)

Module ImportDataMore.
Import Py ImportData Spec Fixtures ImportDataFacts.

(** The loop of lines 43-47 from any table [acc]: it returns exactly
    when every file is read, with the files appended in order. *)
Lemma for_each_fetch_one `{World} (links : list string) (acc t : Table) :
  for_each fetch_one links acc = Ok t <->
  exists csvs, Forall2 (fun link csv => read_csv link = Ok csv) links csvs /\
               t = fold_left append csvs acc.
Proof.
  revert acc. induction links as [|l links IH]; intros acc; simpl.
  - split.
    + intros [= <-]. exists []. split; [constructor|reflexivity].
    + intros (csvs & Hall & ->). inversion Hall; subst. reflexivity.
  - unfold fetch_one at 1. destruct (read_csv l) as [csv|e] eqn:Hl; simpl.
    + rewrite IH. split.
      * intros (csvs & Hall & ->). exists (csv :: csvs). split; [now constructor|reflexivity].
      * intros (csvs & Hall & ->). inversion Hall as [|? c ? cs Hc Hall']; subst.
        rewrite Hl in Hc. injection Hc as <-. eauto.
    + split; [discriminate|].
      intros (csvs & Hall & _). inversion Hall as [|? c ? cs Hc Hall']; subst.
      rewrite Hl in Hc. discriminate.
Qed.

(** X1: [fetch_all] is all or nothing. *)
Theorem fetch_all_all_or_nothing `{World} (links : list string) (t : Table) :
  fetch_all links = Ok t <->
  exists csvs, Forall2 (fun link csv => read_csv link = Ok csv) links csvs /\
               t = fold_left append csvs empty_table.
Proof. apply for_each_fetch_one. Qed.

Lemma loc_urls_in_range start_date end_date (dates : list (option datetime))
    (urls : list string) :
  length dates = length urls ->
  loc urls (map (in_range start_date end_date) dates)
  = map snd (filter (dated_within start_date end_date) (entries dates urls)).
Proof.
  intros Hlen. rewrite <- loc_in_range, <- loc_combine.
  assert (Hsame : forall (m : list bool),
            length (loc dates m) = length (loc urls m)).
  { revert urls Hlen. induction dates as [|d dates IH]; intros [|u urls] Hlen [|b m];
      simpl in *; try reflexivity; try discriminate.
    destruct b; simpl; auto. }
  generalize (Hsame (map (in_range start_date end_date) dates)).
  generalize (loc dates (map (in_range start_date end_date) dates)).
  generalize (loc urls (map (in_range start_date end_date) dates)).
  intros us ds. revert us. induction ds as [|d ds IH]; intros [|u us] Hl;
    simpl in *; try reflexivity; try discriminate.
  f_equal. apply IH. now injection Hl.
Qed.

(** X2: when the page is served, every display text is a date and
    every file of the range is read, [import_data] returns the files
    dated in (start, end], appended in page order. *)
Theorem import_data_returns_the_files_in_range `{World}
    (loaded_at start_date end_date : datetime) (page : option string) (body : string)
    (dates : list (option datetime)) (csvs : list Table) :
  start_date <= end_date ->
  requests_get (default default_webpage page) = Ok (200, body) ->
  turnstile_links (find_all_a body) <> [] ->
  to_datetime_column (map fst (turnstile_links (find_all_a body))) = Some dates ->
  Forall2 (fun e csv => read_csv (snd e) = Ok csv)
          (filter (dated_within start_date end_date)
                  (entries dates (map snd (turnstile_links (find_all_a body)))))
          csvs ->
  import_data loaded_at start_date (Some end_date) page
  = Ok (fold_left append csvs empty_table).
Proof.
  intros Horder Hget Hlinks Hdates Hread.
  unfold import_data. simpl default.
  destruct (end_date <? start_date) eqn:Hlt; [apply Z.ltb_lt in Hlt; lia|].
  rewrite Hget. cbn [Py.bind fst snd negb Z.eqb Pos.eqb]. unfold find_links.
  destruct (length (turnstile_links (find_all_a body)) =? 0)%nat eqn:Hlen.
  { apply Nat.eqb_eq, length_zero_iff_nil in Hlen. congruence. }
  rewrite Hdates. cbn [Py.bind]. rewrite select_links_datetime64. cbn [Py.bind Hyperlink].
  apply for_each_fetch_one. exists csvs. split; [|reflexivity].
  rewrite loc_urls_in_range.
  - clear -Hread. induction Hread; simpl; now constructor.
  - rewrite (to_datetime_column_length _ _ Hdates). now rewrite !length_map.
Qed.

Lemma import_data_returns_the_files_in_range_witness :
  @import_data (web page all_served) may11 apr27 (Some may11) None
  = Ok [url "turnstile_190511.txt"; url "turnstile_190504.txt"].
Proof.
  apply (@import_data_returns_the_files_in_range (web page all_served)
           may11 apr27 may11 None "<html>"
           [Some may11; Some may04; Some apr27]
           [[url "turnstile_190511.txt"]; [url "turnstile_190504.txt"]]).
  - vm_compute. discriminate.
  - reflexivity.
  - vm_compute. discriminate.
  - reflexivity.
  - vm_compute. repeat constructor.
Defined.

(** X3: when one display text of the page is no date, every call
    with a valid range ends with the [TypeError] of the comparison on
    line 37, whatever the range. *)
Theorem import_data_fails_on_an_unconverted_page `{World}
    (loaded_at start_date end_date : datetime) (page : option string) (body : string) :
  start_date <= end_date ->
  requests_get (default default_webpage page) = Ok (200, body) ->
  (exists link, In link (turnstile_links (find_all_a body)) /\
                to_datetime (fst link) = None) ->
  import_data loaded_at start_date (Some end_date) page
  = Raise (TypeError "'>' not supported between instances of 'str' and 'datetime.datetime'").
Proof.
  intros Horder Hget (link & Hin & Hbad).
  unfold import_data. simpl default.
  destruct (end_date <? start_date) eqn:Hlt; [apply Z.ltb_lt in Hlt; lia|].
  rewrite Hget. simpl. unfold find_links.
  destruct (turnstile_links (find_all_a body)) as [|l links] eqn:Heq; [destruct Hin|].
  cbn [length Nat.eqb].
  rewrite to_datetime_column_fails; [reflexivity|].
  exists (fst link). split; [now apply in_map|exact Hbad].
Qed.

Lemma import_data_fails_on_an_unconverted_page_witness :
  @import_data (web page_with_bad_date all_served) may11 apr27 (Some may11) None
  = Raise (TypeError "'>' not supported between instances of 'str' and 'datetime.datetime'").
Proof.
  apply (@import_data_fails_on_an_unconverted_page (web page_with_bad_date all_served)
           may11 apr27 may11 None "<html>").
  - vm_compute. discriminate.
  - reflexivity.
  - exists ("latest file", url "turnstile_190504.txt").
    split; [vm_compute; tauto|reflexivity].
Defined.

(** X4: the two tests before the page is read.  A start date after
    the end date (the load time of the module when the end date is
    omitted) is refused before the page is requested; an answer whose
    status is not 200 is refused before it is parsed. *)
Theorem import_data_refuses_bad_ranges_and_answers `{World}
    (loaded_at start_date : datetime) (end_date : option datetime) (page : option string) :
  (default loaded_at end_date < start_date ->
   import_data loaded_at start_date end_date page
   = Raise (ValueError "the start date must occur before the end date")) /\
  (start_date <= default loaded_at end_date ->
   forall status body,
     requests_get (default default_webpage page) = Ok (status, body) ->
     status <> 200 ->
     import_data loaded_at start_date end_date page
     = Raise (ValueError "the mta_webpage url could not be opened")).
Proof.
  unfold import_data. split.
  - intros Hlt. apply Z.ltb_lt in Hlt. now rewrite Hlt.
  - intros Hle status body Hget Hstatus.
    destruct (default loaded_at end_date <? start_date) eqn:Hlt;
      [apply Z.ltb_lt in Hlt; lia|].
    rewrite Hget. cbn [Py.bind fst].
    destruct (status =? 200) eqn:Heq; [apply Z.eqb_eq in Heq; congruence|reflexivity].
Qed.

(** A start date equal to the end date passes the first test. *)
Example import_data_empty_range :
  @import_data (web page all_served) may11 may04 (Some may04) None = Ok [].
Proof. vm_compute. reflexivity. Qed.

Lemma append_cons (c : ascii) (s t : string) : String c s +:+ t = String c (s +:+ t).
Proof. reflexivity. Qed.

Lemma prefix_append (s t : string) : String.prefix s (s +:+ t) = true.
Proof.
  induction s as [|c s IH]; [now destruct t|].
  rewrite append_cons. simpl. now destruct (ascii_dec c c).
Qed.

Lemma contains_append (needle s t : string) :
  Str.contains needle t = true -> Str.contains needle (s +:+ t) = true.
Proof.
  intros Ht. induction s as [|c s IH]; [exact Ht|].
  rewrite append_cons. simpl. rewrite IH. apply orb_true_r.
Qed.

Lemma turnstile_links_In (anchors : list Anchor) (date link : string) :
  In (date, link) (turnstile_links anchors) <->
  exists a href, In a anchors /\ attrs a !! "href" = Some href /\
                 Str.contains marker href = true /\
                 date = text a /\ link = base_url +:+ href.
Proof.
  induction anchors as [|a anchors IH]; simpl.
  - split; [tauto|]. intros (a & href & [] & _).
  - destruct (attrs a !! "href") as [href|] eqn:Hhref.
    + destruct (Str.contains marker href) eqn:Hmark; simpl; rewrite IH; split.
      * intros [[= <- <-]|(a' & href' & Hin & Hrest)]; [exists a, href; auto|].
        exists a', href'. auto.
      * intros (a' & href' & [<-|Hin] & Hh & Hm & -> & ->).
        -- left. rewrite Hhref in Hh. now injection Hh as <-.
        -- right. exists a', href'. auto.
      * intros (a' & href' & Hin & Hrest). exists a', href'. auto.
      * intros (a' & href' & [<-|Hin] & Hh & Hm & Hrest).
        -- rewrite Hhref in Hh. injection Hh as <-. congruence.
        -- exists a', href'. auto.
    + rewrite IH. split.
      * intros (a' & href' & Hin & Hrest). exists a', href'. auto.
      * intros (a' & href' & [<-|Hin] & Hh & Hrest); [congruence|].
        exists a', href'. auto.
Qed.

(** X5: the links [find_links] returns are those of the anchors whose
    [href] holds the marker, each the base address followed by the
    [href]: it starts with the base and still holds the marker; and
    the two columns of the frame have one length. *)
Theorem find_links_hyperlinks `{World} (anchors : list Anchor) (df : LinksFrame) :
  find_links anchors = Ok df ->
  (forall link, In link (Hyperlink df) <->
     exists a href, In a anchors /\ attrs a !! "href" = Some href /\
                    Str.contains marker href = true /\ link = base_url +:+ href) /\
  (forall link, In link (Hyperlink df) ->
     String.prefix base_url link = true /\ Str.contains marker link = true) /\
  length (Hyperlink df)
  = match Date df with
    | Datetime64 dates => length dates
    | Object texts => length texts
    end.
Proof.
  intros Hfind.
  assert (Hlinks : Hyperlink df = map snd (turnstile_links anchors) /\
                   length (Hyperlink df)
                   = match Date df with
                     | Datetime64 dates => length dates
                     | Object texts => length texts
                     end).
  { unfold find_links in Hfind.
    destruct (length (turnstile_links anchors) =? 0)%nat; [discriminate|].
    destruct (to_datetime_column (map fst (turnstile_links anchors))) as [dates|] eqn:Hd;
      injection Hfind as <-; simpl; (split; [reflexivity|]).
    - rewrite (to_datetime_column_length _ _ Hd). now rewrite !length_map.
    - now rewrite !length_map. }
  destruct Hlinks as [Hurls Hlen].
  assert (Hin : forall link, In link (Hyperlink df) <->
            exists a href, In a anchors /\ attrs a !! "href" = Some href /\
                           Str.contains marker href = true /\ link = base_url +:+ href).
  { intros link. rewrite Hurls, in_map_iff. split.
    - intros ([date link'] & <- & Hl). apply turnstile_links_In in Hl
        as (a & href & Ha & Hh & Hm & _ & ->). eauto 6.
    - intros (a & href & Ha & Hh & Hm & ->).
      exists (text a, base_url +:+ href). split; [reflexivity|].
      apply turnstile_links_In. eauto 8. }
  split; [exact Hin|]. split; [|exact Hlen].
  intros link Hl. apply Hin in Hl as (a & href & _ & _ & Hm & ->).
  split; [apply prefix_append|now apply contains_append].
Qed.

Lemma find_links_hyperlinks_witness :
  String.prefix base_url (url "turnstile_190504.txt") = true /\
  Str.contains marker (url "turnstile_190504.txt") = true.
Proof.
  destruct (@find_links_hyperlinks (web page all_served) page
              {| Date := Datetime64 [Some may11; Some may04; Some apr27];
                 Hyperlink := [url "turnstile_190511.txt"; url "turnstile_190504.txt";
                               url "turnstile_190427.txt"] |})
    as (_ & Hshape & _).
  - vm_compute. reflexivity.
  - apply Hshape. simpl. auto.
Defined.

End ImportDataMore.


(** ** preprocessing.py: further properties *)

Module PreprocessingMore.
Import Py Pandas Preprocessing Fixtures PandasFacts PreprocessingFacts.


(** X7: every row [cleanse_data] returns has ENTRIES strictly between
    0 and 3000 and EXITS below 3000. *)
Theorem cleanse_data_rows_within_bounds `{Calendar}
    (station_coordinates : list StationCoordinate) (df out : DataFrame) :
  cleanse_data station_coordinates df = Ok out ->
  Forall (fun r : Row => exists e x, r !! "ENTRIES" = Some (Num e) /\
                                     r !! "EXITS" = Some (Num x) /\
                                     0 < e < 3000 /\ x < 3000)
         (rows out).
Proof.
  intros Hc. apply List.Forall_forall. intros r Hr.
  unfold cleanse_data in Hc.
  ok_inv Hc as checked Hchecked. ok_inv Hc as sorted Hsorted.
  ok_inv Hc as d Hd. ok_inv Hc as d2 Hd2. ok_inv Hc as d3 Hd3. ok_inv Hc as d4 Hd4.
  destruct (merge_rows _ _ _ _ Hc Hr) as (r4 & sc & Hr4 & _ & _ & Hkept4).
  destruct (add_calendar_rows _ _ _ Hd4 Hr4)
    as (r3 & Hr3 & (e & He3 & He4) & (x & Hx3 & Hx4) & _).
  destruct (drop_anomalies_rows _ _ _ Hd3 Hr3)
    as (_ & (e' & He' & Hebounds) & (x' & Hx' & Hxbound)).
  rewrite He3 in He'. injection He' as <-. rewrite Hx3 in Hx'. injection Hx' as <-.
  exists e, x. rewrite !Hkept4 by discriminate. auto.
Qed.

Lemma cleanse_data_rows_within_bounds_witness :
  Forall (fun r : Row => exists e x, r !! "ENTRIES" = Some (Num e) /\
                                     r !! "EXITS" = Some (Num x) /\
                                     0 < e < 3000 /\ x < 3000)
         (rows cleansed).
Proof.
  apply (@cleanse_data_rows_within_bounds Gregorian.calendar station_coordinates raw).
  vm_compute. reflexivity.
Defined.






(** Series computed from the rows of a frame, row by row. *)
Lemma column_rows (c : string) (rs : list Row) :
  Forall2 (fun (r : Row) v => v = r !! c) rs (map (fun r : Row => r !! c) rs).
Proof. induction rs; simpl; constructor; auto. Qed.

Lemma map_m_rows (R : Row -> option Cell -> Prop) (f : option Cell -> result (option Cell))
    (rs : list Row) (xs ys : Series) :
  Forall2 R rs xs -> map_m f xs = Ok ys ->
  Forall2 (fun r y => exists x, R r x /\ f x = Ok y) rs ys.
Proof.
  intros Hxs. revert ys. induction Hxs as [|r x rs xs Hr Hxs IH]; intros ys Hm; simpl in Hm.
  - injection Hm as <-. constructor.
  - ok_inv Hm as y Hy. ok_inv Hm as ys' Hys. injection Hm as <-.
    constructor; eauto.
Qed.

Lemma zip_m_rows (R1 R2 : Row -> option Cell -> Prop)
    (f : option Cell -> option Cell -> result (option Cell))
    (rs : list Row) (xs ys zs : Series) :
  Forall2 R1 rs xs -> Forall2 R2 rs ys -> zip_m f xs ys = Ok zs ->
  Forall2 (fun r z => exists x y, R1 r x /\ R2 r y /\ f x y = Ok z) rs zs.
Proof.
  intros Hxs. revert ys zs.
  induction Hxs as [|r x rs xs Hr Hxs IH]; intros ys zs Hys Hz;
    inversion Hys as [|? y ? ys' Hy Hys']; subst; simpl in Hz.
  - injection Hz as <-. constructor.
  - ok_inv Hz as z Hfz. ok_inv Hz as zs' Hzs. injection Hz as <-.
    constructor; eauto 6.
Qed.

(** Reading a column after another one was assigned. *)
Lemma column_after_setitem (c c0 : string) (rs : list Row) (s : Series) :
  c0 <> c -> length s = length rs ->
  map (fun r : Row => r !! c) (zip_set c0 rs s) = map (fun r : Row => r !! c) rs.
Proof.
  intros Hne. revert s. induction rs as [|r rs IH]; intros [|v s] Hlen; simpl in *;
    try reflexivity; try discriminate.
  rewrite set_cell_ne by exact Hne. f_equal. apply IH. now injection Hlen.
Qed.

Lemma add_text_some (a : option Cell) (t : string) (v : Cell) :
  add_text a t = Ok (Some v) -> exists x, a = Some (Text x) /\ v = Text (x +:+ t).
Proof. destruct a as [[]|]; simpl; try discriminate. intros [= <-]. eauto. Qed.

Lemma add_cells_some (a b : option Cell) (v : Cell) :
  add_cells a b = Ok (Some v) ->
  exists x y, a = Some (Text x) /\ b = Some (Text y) /\ v = Text (x +:+ y).
Proof.
  destruct a as [[]|], b as [[]|]; simpl; try discriminate. intros [= <-]. eauto.
Qed.

Lemma to_datetime_cell_some `{Calendar} (a : option Cell) (v : Cell) :
  to_datetime_cell a = Ok (Some v) ->
  exists s t, a = Some (Text s) /\ strptime s = Some t /\ v = Time t.
Proof.
  destruct a as [[s| |]|]; simpl; try discriminate.
  destruct (strptime s) as [t|] eqn:Hs; [|discriminate]. intros [= <-]. eauto.
Qed.

(** Lines 22-26, row by row: the two new cells of a row are computed
    from its own cells, and the other cells stay. *)
Lemma add_keys_rows `{Calendar} (df keyed : DataFrame) (rk : Row) :
  add_keys df = Ok keyed -> In rk (rows keyed) ->
  exists r0 : Row, In r0 (rows df) /\
    (forall c, c <> "DATETIME" -> c <> "TURNSTILE_ID" -> rk !! c = r0 !! c) /\
    (forall v, rk !! "DATETIME" = Some v ->
       exists date time t,
         r0 !! "DATE" = Some (Text date) /\ r0 !! "TIME" = Some (Text time) /\
         strptime ((date +:+ " ") +:+ time) = Some t /\ v = Time t) /\
    (forall v, rk !! "TURNSTILE_ID" = Some v ->
       exists ca unit scp station,
         r0 !! "C/A" = Some (Text ca) /\ r0 !! "UNIT" = Some (Text unit) /\
         r0 !! "SCP" = Some (Text scp) /\ r0 !! "STATION" = Some (Text station) /\
         v = Text ((((((ca +:+ "_") +:+ unit) +:+ "_") +:+ scp) +:+ "_") +:+ station)).
Proof.
  unfold add_keys. intros Hk Hin.
  ok_inv Hk as date Hdate. ok_inv Hk as date' Hdate'.
  ok_inv Hk as time Htime. ok_inv Hk as text Htext. ok_inv Hk as dt Hdt.
  ok_inv Hk as ca Hca. ok_inv Hk as id1 Hid1.
  ok_inv Hk as unit Hunit. ok_inv Hk as id2 Hid2. ok_inv Hk as id3 Hid3.
  ok_inv Hk as scp Hscp. ok_inv Hk as id4 Hid4. ok_inv Hk as id5 Hid5.
  ok_inv Hk as station Hstation. ok_inv Hk as id6 Hid6.
  injection Hk as <-.
  apply getitem_ok in Hdate as [_ ->]. apply getitem_ok in Htime as [_ ->].
  apply getitem_ok in Hca as [_ ->]. apply getitem_ok in Hunit as [_ ->].
  apply getitem_ok in Hscp as [_ ->]. apply getitem_ok in Hstation as [_ ->].
  cbn [rows setitem] in *.
  pose proof (map_m_rows _ _ _ _ _ (column_rows "DATE" (rows df)) Hdate') as Fdate.
  pose proof (zip_m_rows _ _ _ _ _ _ _ Fdate (column_rows "TIME" (rows df)) Htext) as Ftext.
  pose proof (map_m_rows _ _ _ _ _ Ftext Hdt) as Fdt.
  assert (Hlen : length dt = length (rows df)).
  { symmetry. eapply Forall2_length. exact Fdt. }
  rewrite !column_after_setitem in * by (discriminate || exact Hlen).
  pose proof (map_m_rows _ _ _ _ _ (column_rows "C/A" (rows df)) Hid1) as F1.
  pose proof (zip_m_rows _ _ _ _ _ _ _ F1 (column_rows "UNIT" (rows df)) Hid2) as F2.
  pose proof (map_m_rows _ _ _ _ _ F2 Hid3) as F3.
  pose proof (zip_m_rows _ _ _ _ _ _ _ F3 (column_rows "SCP" (rows df)) Hid4) as F4.
  pose proof (map_m_rows _ _ _ _ _ F4 Hid5) as F5.
  pose proof (zip_m_rows _ _ _ _ _ _ _ F5 (column_rows "STATION" (rows df)) Hid6) as F6.
  apply list_elem_of_In, list_elem_of_lookup_1 in Hin as [i Hi].
  apply zip_set_lookup in Hi as (r1 & vid & Hr1 & Hvid & ->).
  apply zip_set_lookup in Hr1 as (r0 & vdt & Hr0 & Hvdt & ->).
  pose proof (Forall2_lookup_lr _ _ _ _ _ _ Fdt Hr0 Hvdt) as Rdt.
  pose proof (Forall2_lookup_lr _ _ _ _ _ _ F6 Hr0 Hvid) as Rid.
  exists r0. split; [apply list_elem_of_In; eapply list_elem_of_lookup_2; eauto|].
  split; [|split].
  - intros c Hc1 Hc2. now rewrite !set_cell_ne by congruence.
  - intros v Hv. rewrite set_cell_ne, set_cell_eq in Hv by discriminate. subst vdt.
    destruct Rdt as (z & (x & y & (x0 & -> & Hx) & -> & Hz) & Hdtv).
    apply to_datetime_cell_some in Hdtv as (s & t & -> & Hs & ->).
    apply add_cells_some in Hz as (a & b & -> & Hb & [= ->]).
    apply add_text_some in Hx as (d & Hd & [= ->]).
    exists d, b, t. auto.
  - intros v Hv. rewrite set_cell_eq in Hv. subst vid.
    destruct Rid as (x5 & y5 & (x4 & (x3 & y3 & (x2 & (x1 & y1 & (x0 & -> & H1)
                     & -> & H2) & H3) & -> & H4) & H5) & -> & H6).
    apply add_cells_some in H6 as (a5 & st & -> & Hst & ->).
    apply add_text_some in H5 as (a4 & -> & [= ->]).
    apply add_cells_some in H4 as (a3 & sc & -> & Hsc & [= ->]).
    apply add_text_some in H3 as (a2 & -> & [= ->]).
    apply add_cells_some in H2 as (a1 & un & -> & Hun & [= ->]).
    apply add_text_some in H1 as (a0 & Ha0 & [= ->]).
    exists a0, un, sc, st. auto 6.
Qed.

Lemma add_keys_columns `{Calendar} (df keyed : DataFrame) :
  add_keys df = Ok keyed ->
  has_column keyed "DATETIME" = true /\ has_column keyed "TURNSTILE_ID" = true /\
  forall c, has_column df c = true -> has_column keyed c = true.
Proof.
  unfold add_keys. intros Hk.
  ok_inv Hk as date Hdate. ok_inv Hk as date' Hdate'.
  ok_inv Hk as time Htime. ok_inv Hk as text Htext. ok_inv Hk as dt Hdt.
  ok_inv Hk as ca Hca. ok_inv Hk as id1 Hid1.
  ok_inv Hk as unit Hunit. ok_inv Hk as id2 Hid2. ok_inv Hk as id3 Hid3.
  ok_inv Hk as scp Hscp. ok_inv Hk as id4 Hid4. ok_inv Hk as id5 Hid5.
  ok_inv Hk as station Hstation. ok_inv Hk as id6 Hid6.
  injection Hk as <-. split; [|split].
  - apply has_column_setitem_other, has_column_setitem.
  - apply has_column_setitem.
  - intros c Hc. now do 2 apply has_column_setitem_other.
Qed.

Lemma deaggregate_keeps_columns (df d : DataFrame) (c : string) :
  deaggregate df = Ok d -> has_column df c = true -> has_column d c = true.
Proof.
  unfold deaggregate. intros Hd Hc.
  ok_inv Hd as entries Hentries. ok_inv Hd as entry_diffs Hentry_diffs.
  ok_inv Hd as exits Hexits. ok_inv Hd as exit_diffs Hexit_diffs.
  ok_inv Hd as ids Hids. injection Hd as <-.
  change (has_column (setitem (setitem df "entry_diffs" entry_diffs)
                              "exit_diffs" exit_diffs) c = true).
  now do 2 apply has_column_setitem_other.
Qed.

Lemma complete_column (df : DataFrame) (r : Row) (c : string) :
  complete (columns df) r = true -> has_column df c = true -> is_Some (r !! c).
Proof.
  unfold complete. rewrite forallb_forall. intros Hall Hc.
  apply has_column_In in Hc. specialize (Hall c Hc).
  destruct (r !! c); [eauto|discriminate].
Qed.

(** A row that survives lines 37-49 comes from a row of the keyed
    frame, none of whose cells is missing. *)
Lemma normalized_row_origin `{Calendar} (keyed d d2 d3 : DataFrame) (r3 : Row) :
  deaggregate {| columns := columns keyed;
                 rows := sort_rows ["TURNSTILE_ID"; "DATETIME"] (rows keyed) |} = Ok d ->
  replace_counters d = Ok d2 -> drop_anomalies d2 = Ok d3 -> In r3 (rows d3) ->
  exists rk : Row, In rk (rows keyed) /\
    (forall c, c <> "ENTRIES" -> c <> "EXITS" -> c <> "entry_diffs" -> c <> "exit_diffs" ->
               r3 !! c = rk !! c) /\
    (forall c, has_column keyed c = true -> c <> "entry_diffs" -> c <> "exit_diffs" ->
               is_Some (rk !! c)).
Proof.
  intros Hd Hd2 Hd3 Hr3.
  destruct (drop_anomalies_rows _ _ _ Hd3 Hr3) as (Hr2 & _ & _).
  unfold replace_counters in Hd2. ok_inv Hd2 as dropped Hdropped. injection Hd2 as <-.
  apply drop_ok in Hdropped as [Hrows _].
  apply rename_rows in Hr2 as (ra & Hra & Hkeep2).
  apply rename_rows in Hra as (rb & Hrb & Hkeep1).
  rewrite Hrows in Hrb. apply in_map_iff in Hrb as (r1 & <- & Hr1).
  simpl in Hr1. apply filter_In in Hr1 as [Hr1 Hcomplete].
  apply list_elem_of_In, list_elem_of_lookup_1 in Hr1 as [i Hi].
  destruct (deaggregate_rows _ _ _ _ Hd Hi) as (cur & Hcur & Hkept & _).
  simpl in Hcur.
  assert (Hin : In cur (rows keyed)).
  { apply (Permutation_in _ (sort_rows_perm ["TURNSTILE_ID"; "DATETIME"] (rows keyed))).
    apply list_elem_of_In. eapply list_elem_of_lookup_2. exact Hcur. }
  exists cur. split; [exact Hin|]. split.
  - intros c H1 H2 H3 H4.
    rewrite Hkeep2, Hkeep1 by congruence.
    rewrite drop_cells_other by (simpl; intuition congruence).
    now apply Hkept.
  - intros c Hc H3 H4. rewrite <- Hkept by congruence.
    apply (complete_column d); [exact Hcomplete|].
    now apply (deaggregate_keeps_columns _ _ _ Hd).
Qed.

Lemma apply_time_ok (f : Timestamp -> Z) (a v : option Cell) :
  apply_time f a = Ok v ->
  (a = None /\ v = None) \/ (exists t, a = Some (Time t) /\ v = Some (Num (f t))).
Proof. destruct a as [[]|]; simpl; try discriminate; intros [= <-]; eauto. Qed.

(** Lines 62-69: the four calendar cells of a row are computed from
    its DATETIME. *)
Lemma add_calendar_fields `{Calendar} (d3 d4 : DataFrame) (r4 : Row) :
  add_calendar d3 = Ok d4 -> In r4 (rows d4) ->
  exists r3 : Row, In r3 (rows d3) /\
    r4 !! "DATETIME" = r3 !! "DATETIME" /\
    forall t, r3 !! "DATETIME" = Some (Time t) ->
      r4 !! "WDAY" = Some (Num (weekday t)) /\
      r4 !! "WEEKDAY" = Text <$> days_of_the_week (weekday t) /\
      r4 !! "WEEK" = Some (Num (week t)) /\
      r4 !! "HOUR" = Some (Num (hour t)).
Proof.
  unfold add_calendar. intros Hd Hin.
  ok_inv Hd as dt1 Hdt1. ok_inv Hd as wday Hwday. ok_inv Hd as wday' Hwday'.
  ok_inv Hd as dt2 Hdt2. ok_inv Hd as wk Hwk.
  ok_inv Hd as dt3 Hdt3. ok_inv Hd as hr Hhr.
  ok_inv Hd as entries Hentries. ok_inv Hd as entries' Hentries'.
  ok_inv Hd as exits Hexits. ok_inv Hd as exits' Hexits'.
  injection Hd as <-.
  apply getitem_ok in Hdt1 as [_ ->]. apply getitem_ok in Hwday' as [_ ->].
  apply getitem_ok in Hdt2 as [_ ->]. apply getitem_ok in Hdt3 as [_ ->].
  apply getitem_ok in Hentries as [_ ->]. apply getitem_ok in Hexits as [_ ->].
  cbn [rows setitem] in *.
  destruct (zip_set_map_m _ _ _ _ _ _ Hexits' Hin) as (r5 & vx & Hr5 & Hvx & ->).
  destruct (zip_set_map_m _ _ _ _ _ _ Hentries' Hr5) as (r6 & ve & Hr6 & Hve & ->).
  destruct (zip_set_map_m _ _ _ _ _ _ Hhr Hr6) as (r7 & vh & Hr7 & Hvh & ->).
  destruct (zip_set_map_m _ _ _ _ _ _ Hwk Hr7) as (r8 & vw & Hr8 & Hvw & ->).
  apply zip_set_map in Hr8 as (r9 & Hr9 & ->).
  destruct (zip_set_map_m _ _ _ _ _ _ Hwday Hr9) as (r3 & vd & Hr3 & Hvd & ->).
  repeat rewrite set_cell_ne in Hvh by discriminate.
  repeat rewrite set_cell_ne in Hvw by discriminate.
  rewrite set_cell_eq.
  exists r3. split; [exact Hr3|]. split.
  - now rewrite !set_cell_ne by discriminate.
  - intros t Ht. rewrite Ht in Hvd, Hvw, Hvh. simpl in Hvd, Hvw, Hvh.
    injection Hvd as <-. injection Hvw as <-. injection Hvh as <-.
    repeat split.
    + rewrite !set_cell_ne by discriminate. apply set_cell_eq.
    + rewrite !set_cell_ne by discriminate. apply set_cell_eq.
    + rewrite !set_cell_ne by discriminate. apply set_cell_eq.
    + rewrite !set_cell_ne by discriminate. apply set_cell_eq.
Qed.

(** The stages of a call that returns. *)
Lemma cleanse_data_stages `{Calendar} (station_coordinates : list StationCoordinate)
    (df out : DataFrame) :
  cleanse_data station_coordinates df = Ok out ->
  exists keyed d d2 d3 d4 : DataFrame,
    check_column_names (columns (strip_spaces (strip_columns df))) = Ok tt /\
    add_keys (strip_spaces (strip_columns df)) = Ok keyed /\
    deaggregate {| columns := columns keyed;
                   rows := sort_rows ["TURNSTILE_ID"; "DATETIME"] (rows keyed) |} = Ok d /\
    replace_counters d = Ok d2 /\ drop_anomalies d2 = Ok d3 /\
    add_calendar d3 = Ok d4 /\ merge d4 station_coordinates = Ok out.
Proof.
  unfold cleanse_data. intros Hc.
  ok_inv Hc as checked Hchecked. ok_inv Hc as sorted Hsorted.
  ok_inv Hc as d Hd. ok_inv Hc as d2 Hd2. ok_inv Hc as d3 Hd3. ok_inv Hc as d4 Hd4.
  unfold sorted_frame in Hsorted. ok_inv Hsorted as keyed Hkeyed.
  unfold sort_values in Hsorted. ok_inv Hsorted as u Hu. injection Hsorted as <-.
  destruct checked. exists keyed, d, d2, d3, d4. auto 10.
Qed.

(** X9: in every row [cleanse_data] returns, DATETIME is a timestamp
    and WDAY, WEEKDAY, WEEK and HOUR are its weekday index, the name of
    that weekday, its week and its hour. *)
Theorem cleanse_data_calendar_fields `{Calendar}
    (station_coordinates : list StationCoordinate) (df out : DataFrame) :
  cleanse_data station_coordinates df = Ok out ->
  Forall (fun r : Row => exists t,
            r !! "DATETIME" = Some (Time t) /\
            r !! "WDAY" = Some (Num (weekday t)) /\
            r !! "WEEKDAY" = Text <$> days_of_the_week (weekday t) /\
            r !! "WEEK" = Some (Num (week t)) /\
            r !! "HOUR" = Some (Num (hour t)))
         (rows out).
Proof.
  intros Hc. apply List.Forall_forall. intros r Hr.
  apply cleanse_data_stages in Hc
    as (keyed & d & d2 & d3 & d4 & _ & Hkeyed & Hd & Hd2 & Hd3 & Hd4 & Hout).
  destruct (merge_rows _ _ _ _ Hout Hr) as (r4 & sc & Hr4 & _ & _ & Hkept4).
  destruct (add_calendar_fields _ _ _ Hd4 Hr4) as (r3 & Hr3 & Hdt & Hfields).
  destruct (normalized_row_origin _ _ _ _ _ Hd Hd2 Hd3 Hr3) as (rk & Hrk & Hkept & Hsome).
  destruct (add_keys_columns _ _ Hkeyed) as (Hcol & _ & _).
  destruct (Hsome "DATETIME" Hcol) as [v Hv]; try discriminate.
  destruct (add_keys_rows _ _ _ Hkeyed Hrk) as (r0 & _ & _ & Hdatetime & _).
  destruct (Hdatetime v Hv) as (date & time & t & _ & _ & _ & ->).
  rewrite <- Hkept in Hv by discriminate.
  destruct (Hfields t Hv) as (Hwday & Hname & Hweek & Hhour).
  exists t. rewrite !Hkept4 by discriminate. rewrite Hdt. auto.
Qed.

Lemma cleanse_data_calendar_fields_witness :
  Forall (fun r : Row => exists t,
            r !! "DATETIME" = Some (Time t) /\
            r !! "WDAY" = Some (Num (Gregorian.weekday_of t)) /\
            r !! "WEEKDAY" = Text <$> days_of_the_week (Gregorian.weekday_of t) /\
            r !! "WEEK" = Some (Num (Gregorian.week_of t)) /\
            r !! "HOUR" = Some (Num (Gregorian.hour_of t)))
         (rows cleansed).
Proof.
  apply (@cleanse_data_calendar_fields Gregorian.calendar station_coordinates raw).
  vm_compute. reflexivity.
Defined.

(** X10: in every row [cleanse_data] returns, TURNSTILE_ID is the
    row's own C/A, UNIT, SCP and STATION joined by underscores, and
    DATETIME is the reading of its own DATE, a space and its TIME. *)
Theorem cleanse_data_keys_of_a_row `{Calendar}
    (station_coordinates : list StationCoordinate) (df out : DataFrame) :
  cleanse_data station_coordinates df = Ok out ->
  Forall (fun r : Row => exists ca unit scp station date time t,
            r !! "C/A" = Some (Text ca) /\ r !! "UNIT" = Some (Text unit) /\
            r !! "SCP" = Some (Text scp) /\ r !! "STATION" = Some (Text station) /\
            r !! "TURNSTILE_ID"
            = Some (Text ((((((ca +:+ "_") +:+ unit) +:+ "_") +:+ scp) +:+ "_")
                          +:+ station)) /\
            r !! "DATE" = Some (Text date) /\ r !! "TIME" = Some (Text time) /\
            strptime ((date +:+ " ") +:+ time) = Some t /\
            r !! "DATETIME" = Some (Time t))
         (rows out).
Proof.
  intros Hc. apply List.Forall_forall. intros r Hr.
  apply cleanse_data_stages in Hc
    as (keyed & d & d2 & d3 & d4 & _ & Hkeyed & Hd & Hd2 & Hd3 & Hd4 & Hout).
  destruct (merge_rows _ _ _ _ Hout Hr) as (r4 & sc & Hr4 & _ & _ & Hkept4).
  destruct (add_calendar_rows _ _ _ Hd4 Hr4) as (r3 & Hr3 & _ & _ & Hkept3).
  destruct (normalized_row_origin _ _ _ _ _ Hd Hd2 Hd3 Hr3) as (rk & Hrk & Hkept & Hsome).
  destruct (add_keys_columns _ _ Hkeyed) as (Hcol1 & Hcol2 & _).
  destruct (Hsome "DATETIME" Hcol1) as [v Hv]; try discriminate.
  destruct (Hsome "TURNSTILE_ID" Hcol2) as [w Hw]; try discriminate.
  destruct (add_keys_rows _ _ _ Hkeyed Hrk) as (r0 & _ & Hsame & Hdatetime & Hid).
  destruct (Hdatetime v Hv) as (date & time & t & Hdate & Htime & Hparse & ->).
  destruct (Hid w Hw) as (ca & unit & scp & station & Hca & Hunit & Hscp & Hstation & ->).
  exists ca, unit, scp, station, date, time, t.
  rewrite !Hkept4, !Hkept3, !Hkept by discriminate.
  rewrite !(Hsame "C/A"), !(Hsame "UNIT"), !(Hsame "SCP"), !(Hsame "STATION"),
    !(Hsame "DATE"), !(Hsame "TIME") by discriminate.
  repeat split; assumption.
Qed.

Lemma cleanse_data_keys_of_a_row_witness :
  Forall (fun r : Row => exists ca unit scp station date time t,
            r !! "C/A" = Some (Text ca) /\ r !! "UNIT" = Some (Text unit) /\
            r !! "SCP" = Some (Text scp) /\ r !! "STATION" = Some (Text station) /\
            r !! "TURNSTILE_ID"
            = Some (Text ((((((ca +:+ "_") +:+ unit) +:+ "_") +:+ scp) +:+ "_")
                          +:+ station)) /\
            r !! "DATE" = Some (Text date) /\ r !! "TIME" = Some (Text time) /\
            Gregorian.parse ((date +:+ " ") +:+ time) = Some t /\
            r !! "DATETIME" = Some (Time t))
         (rows cleansed).
Proof.
  apply (@cleanse_data_keys_of_a_row Gregorian.calendar station_coordinates raw).
  vm_compute. reflexivity.
Defined.




















(** The padded station name of [raw] is stripped; its counters stay. *)
Example strip_spaces_on_raw :
  cells ["STATION"; "ENTRIES"] (strip_spaces (strip_columns raw))
  = [ [Some (Text "59 ST"); Some (Num 10999)]; [Some (Text "59 ST"); Some (Num 150)];
      [Some (Text "59 ST"); Some (Num 5000)]; [Some (Text "59 ST"); Some (Num 100)];
      [Some (Text "59 ST"); Some (Num 8000)]; [Some (Text "59 ST"); Some (Num 180)] ].
Proof. vm_compute. reflexivity. Qed.

End PreprocessingMore.
